(** * app.py: token-authenticated CRUD over users and books

    A shallow embedding of [src/app.py] (a Flask application on
    Flask-SQLAlchemy and Flask-HTTPAuth) and the properties of its token
    life cycle, its two authentication callbacks, its admin guard and its
    route handlers.

    Conventions of the embedding.
    - A Python value that the code moves around without looking at its type
      (JSON request bodies, profile columns, response dictionaries) is a
      [value]; a column that the code only ever writes with one type keeps
      that type ([token : option string], [token_exp : option Z]).
    - A [datetime] is the number of microseconds since the epoch, a [Z];
      [timedelta(seconds=n)] is [seconds n].  The clock ([dt.utcnow()]) and
      the random source ([secrets.token_urlsafe(32)]) are inputs of the
      functions that read them.  Python's [OverflowError] for dates outside
      the years 1..9999 is not modelled.
    - A function that can raise returns an [outcome]; code that also
      mutates objects or the database runs in the state-and-exception monad
      [SE], whose state survives an exception, as the mutations of a Python
      object do.
    - A persistent ORM object is a position in the session's row list (the
      identity map); a new, not yet added object is a record value.
    - The session and the committed database are kept apart: a query sees
      the session (pending attribute writes are flushed before a query),
      [commit] copies the session to the committed rows. *)

From stdpp Require Import gmap strings list fin_maps pretty.
From Stdlib Require Import ZArith Lia.

#[local] Set Warnings "-register-all".
#[local] Open Scope Z_scope.

(** ** Python values *)

Inductive value : Type :=
  | VNone
  | VBool (b : bool)
  | VInt (n : Z)
  | VStr (s : string)
  | VDatetime (t : Z)
  | VList (l : list value)
  | VDict (d : gmap string value).

Definition of_str (o : option string) : value :=
  match o with Some s => VStr s | None => VNone end.
Definition of_int (o : option Z) : value :=
  match o with Some n => VInt n | None => VNone end.
Definition of_datetime (o : option Z) : value :=
  match o with Some t => VDatetime t | None => VNone end.
Definition of_bool (o : option bool) : value :=
  match o with Some b => VBool b | None => VNone end.

#[global] Instance value_is_str_dec (v : value) (s : string) : Decision (v = VStr s).
Proof.
  destruct v as [| | |s'| | |]; try (right; discriminate).
  destruct (decide (s' = s)) as [->|Hne]; [left; reflexivity|right; congruence].
Defined.

(** [timedelta(seconds=n)] in microseconds. *)
Definition seconds (n : Z) : Z := n * 1000000.

(** ** Exceptions and outcomes *)

Inductive exn : Type :=
  | AttributeError (attr : string)
  | KeyError (key : string)
  | TypeError (what : string)
  | IntegrityError (what : string)
  | ObjectDeletedError.

(** What running a piece of code ends in: a value, [abort(status)]
    (werkzeug's HTTPException) or an uncaught exception. *)
Inductive outcome (A : Type) : Type :=
  | Return (a : A)
  | Abort (status : Z)
  | Raise (e : exn).
Arguments Return {A} a.
Arguments Abort {A} status.
Arguments Raise {A} e.

Definition outcome_bind {A B} (o : outcome A) (k : A → outcome B) : outcome B :=
  match o with
  | Return a => k a
  | Abort s => Abort s
  | Raise e => Raise e
  end.

#[global] Instance outcome_ret : MRet outcome := λ A a, Return a.
#[global] Instance outcome_mbind : MBind outcome := λ A B k o, outcome_bind o k.

(** State and exceptions: the state is returned in every case. *)
Definition SE (S A : Type) : Type := S → outcome A * S.

Definition se_bind {S A B} (c : SE S A) (k : A → SE S B) : SE S B :=
  λ s, match c s with
       | (Return a, s') => k a s'
       | (Abort st, s') => (Abort st, s')
       | (Raise e, s') => (Raise e, s')
       end.

#[global] Instance se_ret {S} : MRet (SE S) := λ A a s, (Return a, s).
#[global] Instance se_mbind {S} : MBind (SE S) := λ A B k c, se_bind c k.

Definition abort {S A} (status : Z) : SE S A := λ s, (Abort status, s).
Definition raise {S A} (e : exn) : SE S A := λ s, (Raise e, s).
Definition lift {S A} (o : outcome A) : SE S A := λ s, (o, s).
Definition get_state {S} : SE S S := λ s, (Return s, s).
Definition modify {S} (f : S → S) : SE S unit := λ s, (Return tt, f s).

(** ** Truthiness, membership and subscription *)

(** [bool(v)]. *)
Definition truthy (v : value) : bool :=
  match v with
  | VNone => false
  | VBool b => b
  | VInt n => negb (n =? 0)
  | VStr s => negb (String.eqb s "")
  | VDatetime _ => true
  | VList l => match l with [] => false | _ => true end
  | VDict d => negb (bool_decide (d = ∅))
  end.

(** [sub in s] for two strings. *)
Fixpoint is_substring (sub s : string) : bool :=
  String.prefix sub s
  || match s with
     | EmptyString => false
     | String _ s' => is_substring sub s'
     end.

(** [key in data] for a string [key]: keys of a dict, elements of a list,
    substrings of a string; anything else is not iterable. *)
Definition contains (data : value) (key : string) : outcome bool :=
  match data with
  | VDict d => Return (bool_decide (is_Some (d !! key)))
  | VList l => Return (bool_decide (Exists (λ v, v = VStr key) l))
  | VStr s => Return (is_substring key s)
  | _ => Raise (TypeError "argument is not iterable")
  end.

(** [all(key in data for key in keys)]: stops at the first absent key. *)
Fixpoint all_in (data : value) (keys : list string) : outcome bool :=
  match keys with
  | [] => Return true
  | k :: keys' =>
      b ← contains data k;
      if b : bool then all_in data keys' else Return false
  end.

(** [data[key]] for a string [key]. *)
Definition subscript (data : value) (key : string) : outcome value :=
  match data with
  | VDict d =>
      match d !! key with
      | Some v => Return v
      | None => Raise (KeyError key)
      end
  | VList _ => Raise (TypeError "list indices must be integers")
  | VStr _ => Raise (TypeError "string indices must be integers")
  | _ => Raise (TypeError "object is not subscriptable")
  end.

(** ** The two tables *)

(** A [User] object.  The columns are those of the class body; [icon] is
    not a column: [from_dict] sets it as a plain attribute of the object,
    and reading it before that raises [AttributeError]. *)
Record User : Type := mkUser {
  user_id : option Z;
  first_name : value;
  last_name : value;
  email : value;
  password : value;
  created_on : option Z;
  is_admin : option bool;
  token : option string;
  token_exp : option Z;
  icon : option value
}.

Record Book : Type := mkBook {
  book_id : option Z;
  title : value;
  author : value;
  pages : value;
  summary : value;
  image : value
}.

(** [User()] and [Book()]: every column unset. *)
Definition new_User : User :=
  mkUser None VNone VNone VNone VNone None None None None None.
Definition new_Book : Book := mkBook None VNone VNone VNone VNone VNone.

Definition set_first_name (v : value) (u : User) : User :=
  mkUser (user_id u) v (last_name u) (email u) (password u) (created_on u)
         (is_admin u) (token u) (token_exp u) (icon u).
Definition set_last_name (v : value) (u : User) : User :=
  mkUser (user_id u) (first_name u) v (email u) (password u) (created_on u)
         (is_admin u) (token u) (token_exp u) (icon u).
Definition set_email (v : value) (u : User) : User :=
  mkUser (user_id u) (first_name u) (last_name u) v (password u) (created_on u)
         (is_admin u) (token u) (token_exp u) (icon u).
Definition set_password (v : value) (u : User) : User :=
  mkUser (user_id u) (first_name u) (last_name u) (email u) v (created_on u)
         (is_admin u) (token u) (token_exp u) (icon u).
Definition set_token (t : option string) (u : User) : User :=
  mkUser (user_id u) (first_name u) (last_name u) (email u) (password u)
         (created_on u) (is_admin u) t (token_exp u) (icon u).
Definition set_token_exp (e : option Z) (u : User) : User :=
  mkUser (user_id u) (first_name u) (last_name u) (email u) (password u)
         (created_on u) (is_admin u) (token u) e (icon u).
Definition set_icon (v : value) (u : User) : User :=
  mkUser (user_id u) (first_name u) (last_name u) (email u) (password u)
         (created_on u) (is_admin u) (token u) (token_exp u) (Some v).
Definition set_book_id (n : Z) (b : Book) : Book :=
  mkBook (Some n) (title b) (author b) (pages b) (summary b) (image b).

(** The data attributes an object answers to: its columns, and whatever
    was assigned on the instance.  Neither class has an attribute [id]:
    the primary keys are [user_id] and [book_id]. *)
Definition User_attrs (u : User) : gmap string value :=
  let columns : gmap string value :=
    {[ "user_id" := of_int (user_id u);
       "first_name" := first_name u;
       "last_name" := last_name u;
       "email" := email u;
       "password" := password u;
       "created_on" := of_datetime (created_on u);
       "is_admin" := of_bool (is_admin u);
       "token" := of_str (token u);
       "token_exp" := of_datetime (token_exp u) ]} in
  match icon u with
  | Some v => <["icon" := v]> columns
  | None => columns
  end.

Definition Book_attrs (b : Book) : gmap string value :=
  {[ "book_id" := of_int (book_id b);
     "title" := title b;
     "author" := author b;
     "pages" := pages b;
     "summary" := summary b;
     "image" := image b ]}.

Definition getattr (attrs : gmap string value) (name : string) : outcome value :=
  match attrs !! name with
  | Some v => Return v
  | None => Raise (AttributeError name)
  end.

(** The value bound to [g.current_user]: never assigned in this request,
    assigned [None], or a reference to a user object of the session. *)
Inductive current_user : Type :=
  | Unset
  | IsNone
  | Ref (i : nat).

Record world : Type := mkWorld {
  session_users : list User;
  session_books : list Book;
  stored_users : list User;
  stored_books : list Book;
  g_current_user : current_user
}.

Definition with_session_users (f : list User → list User) (w : world) : world :=
  mkWorld (f (session_users w)) (session_books w) (stored_users w)
          (stored_books w) (g_current_user w).
Definition with_session_books (f : list Book → list Book) (w : world) : world :=
  mkWorld (session_users w) (f (session_books w)) (stored_users w)
          (stored_books w) (g_current_user w).
Definition set_g_current_user (c : current_user) (w : world) : world :=
  mkWorld (session_users w) (session_books w) (stored_users w)
          (stored_books w) c.

(** *** Queries *)

(** [User.query.filter_by(token=t).first()]; [filter_by(token=None)] is
    [token IS NULL]. *)
Definition first_by_token (t : option string) (rows : list User)
  : option (nat * User) :=
  list_find (λ u, token u = t) rows.

(** [User.query.filter_by(email=e).first()]. *)
Definition first_by_email (e : string) (rows : list User) : option (nat * User) :=
  list_find (λ u, email u = VStr e) rows.

(** [User.query.get(id)] and [Book.query.get(id)]: by primary key.  The
    key is looked up as a number; SQLite's [OverflowError] for a key that
    does not fit 64 bits is not modelled (see [int64]). *)
Definition get_user (id : Z) (rows : list User) : option (nat * User) :=
  list_find (λ u, user_id u = Some id) rows.
Definition get_book (id : Z) (rows : list Book) : option (nat * Book) :=
  list_find (λ b, book_id b = Some id) rows.

(** *** Constraints and commit *)

(** The non-null values of a [unique=True] column are pairwise different. *)
Definition unique_tokens (rows : list User) : Prop :=
  NoDup (omap token rows).
Definition unique_emails (rows : list User) : Prop :=
  NoDup (omap (λ u, match email u with VStr e => Some e | _ => None end) rows).

(** [db.session.commit()]: the pending rows are written; a violated unique
    index fails the flush and the transaction is rolled back. *)
Definition commit : SE world unit := λ w,
  if decide (unique_tokens (session_users w) ∧ unique_emails (session_users w))
  then (Return tt,
        mkWorld (session_users w) (session_books w) (session_users w)
                (session_books w) (g_current_user w))
  else (Raise (IntegrityError "UNIQUE constraint failed"),
        mkWorld (stored_users w) (stored_books w) (stored_users w)
                (stored_books w) (g_current_user w)).

(** The key the table gives a new row. *)
Definition next_id (ids : list (option Z)) : Z :=
  1 + foldr (λ o m, match o with Some n => Z.max n m | None => m end) 0 ids.

(** Reading the object behind a reference. *)
Definition deref_user (i : nat) : SE world User := λ w,
  match session_users w !! i with
  | Some u => (Return u, w)
  | None => (Raise ObjectDeletedError, w)
  end.

(** Running a method body on the object behind a reference: the object is
    mutated in place, also when the body raises half way. *)
Definition on_user {A} (i : nat) (c : SE User A) : SE world A := λ w,
  match session_users w !! i with
  | Some u => let '(r, u') := c u in (r, with_session_users (<[i := u']>) w)
  | None => (Raise ObjectDeletedError, w)
  end.
Definition on_book {A} (i : nat) (c : SE Book A) : SE world A := λ w,
  match session_books w !! i with
  | Some b => let '(r, b') := c b in (r, with_session_books (<[i := b']>) w)
  | None => (Raise ObjectDeletedError, w)
  end.

(** [db.session.add(obj)] for a new object, as the flush inserts it: the
    table gives the key, the column defaults fill what is unset. *)
Definition add_user (now : Z) (u : User) : SE world User := λ w,
  let u' :=
    mkUser (Some (next_id (user_id <$> session_users w)))
           (first_name u) (last_name u) (email u) (password u)
           (Some (default now (created_on u)))
           (Some (default false (is_admin u)))
           (token u) (token_exp u) (icon u) in
  (Return u', with_session_users (λ rows, rows ++ [u']) w).
Definition add_book (b : Book) : SE world Book := λ w,
  let b' := set_book_id (next_id (book_id <$> session_books w)) b in
  (Return b', with_session_books (λ rows, rows ++ [b']) w).

(** ** Responses *)

Record response : Type := make_response {
  body : value;
  status : Z
}.

(** A bound method: the positional arguments, then a body that runs on
    [self] and returns a value. *)
Definition method (Self : Type) : Type := list value → SE Self value.

(** The methods that app.py calls on its two classes and that neither
    class body defines.  [None] is the attribute missing, so that the call
    raises [AttributeError]; [Some m] is any definition one may add. *)
Record members : Type := mkMembers {
  User_hash_password : option (method User);
  User_check_hashed_password : option (method User);
  Book_from_dict : option (method Book)
}.

(** app.py as it is: none of the three is defined. *)
Definition app_py : members := mkMembers None None None.

Definition call {Self} (m : option (method Self)) (name : string)
    (args : list value) : SE Self value :=
  match m with
  | Some body => body args
  | None => raise (AttributeError name)
  end.

(** ** class User *)

Section App.

(** [str(v)], as an f-string formats a value. *)
Variable format : value → string.
Variable defs : members.

(** [User.get_token(self, exp=86400)].  [now] is [dt.utcnow()], [fresh] is
    [secrets.token_urlsafe(32)]. *)
Definition get_token (self : nat) (exp : Z) (now : Z) (fresh : string)
  : SE world (option string) :=
  u ← deref_user self;
  let current_time := now in
  reuse ← lift (if truthy (of_str (token u))
                then match token_exp u with
                     | Some e => Return (bool_decide (current_time + seconds 60 < e))
                     | None => Raise (TypeError "'>' between NoneType and datetime")
                     end
                else Return false);
  if reuse : bool then mret (token u)
  else
    on_user self (modify (set_token (Some fresh)));;
    on_user self (modify (set_token_exp (Some (current_time + seconds exp))));;
    commit;;
    u' ← deref_user self;
    mret (token u').

(** [User.revoke_token(self)]: no commit. *)
Definition revoke_token (self : nat) (now : Z) : SE world unit :=
  on_user self (modify (set_token_exp (Some (now - seconds 61)))).

(** [User.check_token(token)]; the result is the reference to the user
    object, [None] for Python's [None]. *)
Definition check_token (t : option string) (now : Z) : SE world (option nat) :=
  w ← get_state;
  match first_by_token t (session_users w) with
  | None => mret None
  | Some (i, user) =>
      match token_exp user with
      | None => raise (TypeError "'<' between NoneType and datetime")
      | Some e => if bool_decide (e < now) then mret None else mret (Some i)
      end
  end.

(** [User.from_dict(self, data)]. *)
Definition User_from_dict (data : value) : SE User unit :=
  v ← lift (subscript data "first_name"); modify (set_first_name v);;
  v ← lift (subscript data "last_name"); modify (set_last_name v);;
  v ← lift (subscript data "email"); modify (set_email v);;
  h ← match User_hash_password defs with
      | None => raise (AttributeError "hash_password")
      | Some body => arg ← lift (subscript data "password"); body [arg]
      end;
  modify (set_password h);;
  v ← lift (subscript data "icon"); modify (set_icon v).

(** [User.to_dict(self)]: the dict display reads the attributes in order. *)
Definition User_to_dict (self : User) : outcome (gmap string value) :=
  let attrs := User_attrs self in
  v_id ← getattr attrs "id";
  v_first_name ← getattr attrs "first_name";
  v_last_name ← getattr attrs "last_name";
  v_email ← getattr attrs "email";
  v_created_on ← getattr attrs "created_on";
  v_icon ← getattr attrs "icon";
  v_is_admin ← getattr attrs "is_admin";
  v_token ← getattr attrs "token";
  mret ({[ "id" := v_id;
           "first_name" := v_first_name;
           "last_name" := v_last_name;
           "email" := v_email;
           "created_on" := v_created_on;
           "icon" := v_icon;
           "is_admin" := v_is_admin;
           "token" := v_token ]} : gmap string value).

(** ** class Book *)

(** [Book.to_dict(self)]; the key of the page count is ['pages '], with a
    trailing blank, as in the source. *)
Definition Book_to_dict (self : Book) : gmap string value :=
  {[ "book_id" := of_int (book_id self);
     "title" := title self;
     "author" := author self;
     "pages " := pages self;
     "summary" := summary self;
     "image" := image self ]}.

(** ** Authentication callbacks *)

(** [verify_token(token)]. *)
Definition verify_token (token : string) (now : Z) : SE world (option nat) :=
  user ← (if truthy (VStr token) then check_token (Some token) now else mret None);
  modify (set_g_current_user
            match user with Some i => Ref i | None => IsNone end);;
  mret user.

(** [verify_password(email, password)]. *)
Definition verify_password (email password : string) : SE world value :=
  w ← get_state;
  match first_by_email email (session_users w) with
  | None => mret (VBool false)
  | Some (i, _) =>
      modify (set_g_current_user (Ref i));;
      on_user i (call (User_check_hashed_password defs) "check_hashed_password"
                      [VStr password])
  end.

(** Flask-HTTPAuth takes a callback result in [(False, None)] as a failed
    authentication ([0 == False] in Python). *)
Definition rejected (v : value) : bool :=
  match v with
  | VNone | VBool false | VInt 0 => true
  | _ => false
  end.

(** [@token_auth.login_required()] and [@basic_auth.login_required()], as
    far as the handlers depend on them: the callback runs first, a failed
    authentication answers 401 and the view is not called. *)
Definition token_login_required {Args A} (f : Args → SE world A)
    (bearer : string) (now : Z) : Args → SE world A := λ args,
  user ← verify_token bearer now;
  match user with
  | None => abort 401
  | Some _ => f args
  end.

Definition basic_login_required {Args A} (f : Args → SE world A)
    (username client_password : string) : Args → SE world A := λ args,
  user ← verify_password username client_password;
  if rejected user then abort 401 else f args.

(** ** Helpers *)

(** [require_admin(f)]: the decorated function [check_admin]. *)
Definition require_admin {Args A} (f : Args → SE world A) : Args → SE world A :=
  λ args,
  w ← get_state;
  match g_current_user w with
  | Unset => raise (AttributeError "current_user")
  | IsNone => raise (AttributeError "is_admin")
  | Ref i =>
      u ← deref_user i;
      if negb (truthy (of_bool (is_admin u))) then abort 403 else f args
  end.

(** ** Views *)

(** What a view reads from outside: the parsed JSON body
    ([request.get_json()]), the clock and the random source. *)
Record request : Type := mkRequest {
  json : value;
  utcnow : Z;
  token_urlsafe : string
}.

(** The object behind [g.current_user], for a method call [name] on it. *)
Definition the_current_user (name : string) : SE world nat :=
  w ← get_state;
  match g_current_user w with
  | Unset => raise (AttributeError "current_user")
  | IsNone => raise (AttributeError name)
  | Ref i => mret i
  end.

(** A view returns a response, or nothing ([None]) when it falls off its
    end. *)
Definition view (Args : Type) : Type := Args → SE world (option response).

(** [get_login()]. *)
Definition get_login (req : request) : view unit := λ _,
  user ← the_current_user "get_token";
  token ← get_token user 86400 (utcnow req) (token_urlsafe req);
  u ← deref_user user;
  d ← lift (User_to_dict u);
  mret (Some (make_response (VDict (d ∪ {[ "token" := of_str token ]})) 200)).

(** [register_user(id)]. *)
Definition register_user (req : request) : view Z := λ id,
  let new_user_dict := json req in
  ok ← lift (all_in new_user_dict
               ["first_name"; "last_name"; "email"; "password"; "created_on";
                "is_admin"]);
  (if negb ok then abort 404 else mret tt);;
  new_user ← lift (let '(r, u) := User_from_dict new_user_dict new_User in
                   _ ← r; Return u);
  new_user ← add_user (utcnow req) new_user;
  commit;;
  let attrs := User_attrs new_user in
  v_first_name ← lift (getattr attrs "first_name");
  v_last_name ← lift (getattr attrs "last_name");
  v_id ← lift (getattr attrs "id");
  mret (Some (make_response
                (VStr ("User " +:+ format v_first_name +:+ " "
                       +:+ format v_last_name
                       +:+ " has been created with id: " +:+ format v_id))
                200)).

(** [put_user(id)]. *)
Definition put_user (req : request) : view Z := λ id,
  let user_dict := json req in
  w ← get_state;
  match get_user id (session_users w) with
  | None => abort 404
  | Some (user, _) =>
      on_user user (User_from_dict user_dict);;
      commit;;
      u ← deref_user user;
      v_id ← lift (getattr (User_attrs u) "id");
      mret (Some (make_response
                    (VStr ("User " +:+ format v_id +:+ " has been udpated"))
                    200))
  end.

(** [get_book_by_id(id)]. *)
Definition get_book_by_id : view Z := λ id,
  w ← get_state;
  match get_book id (session_books w) with
  | None => abort 404
  | Some (_, book) =>
      let book_dict := Book_to_dict book in
      mret (Some (make_response (VDict book_dict) 200))
  end.

(** [post_book()]: [from_dict] is called without an argument. *)
Definition post_book (req : request) : view unit := λ _,
  let book_dict := json req in
  ok ← lift (all_in book_dict ["title"; "author"; "pages"; "summary"; "image"]);
  (if negb ok then abort 404 else mret tt);;
  book ← lift (let '(r, b) := call (Book_from_dict defs) "from_dict" [] new_Book in
               _ ← r; Return b);
  book ← add_book book;
  commit;;
  let attrs := Book_attrs book in
  v_title ← lift (getattr attrs "title");
  v_id ← lift (getattr attrs "id");
  mret (Some (make_response
                (VStr ("Book " +:+ format v_title +:+ " was created with an id "
                       +:+ format v_id))
                200)).

(** [put_book(id)]: the response is built and dropped; the function ends
    without a [return]. *)
Definition put_book (req : request) : view Z := λ id,
  let book_dict := json req in
  w ← get_state;
  match get_book id (session_books w) with
  | None => abort 404
  | Some (book, _) =>
      on_book book (call (Book_from_dict defs) "from_dict" [book_dict]);;
      commit;;
      w' ← get_state;
      b ← lift (match session_books w' !! book with
                | Some b => Return b
                | None => Raise ObjectDeletedError
                end);
      let attrs := Book_attrs b in
      v_title ← lift (getattr attrs "title");
      v_id ← lift (getattr attrs "id");
      let _ := make_response
                 (VStr ("Book " +:+ format v_title +:+ " with ID "
                        +:+ format v_id +:+ " has been updated"))
                 200 in
      mret None
  end.

(** ** The routes, with their decorators *)

(** /login takes the user name and password of HTTP Basic; the other
    routes take the bearer token of the [Authorization] header, empty when
    there is none.  The clock is read once per request. *)
Definition GET_login (username client_password : string) (req : request)
  : SE world (option response) :=
  basic_login_required (get_login req) username client_password tt.

Definition POST_user (bearer : string) (req : request) (id : Z)
  : SE world (option response) :=
  token_login_required (require_admin (register_user req)) bearer (utcnow req) id.

Definition PUT_user (bearer : string) (req : request) (id : Z)
  : SE world (option response) :=
  token_login_required (require_admin (put_user req)) bearer (utcnow req) id.

Definition GET_book_by_id (bearer : string) (req : request) (id : Z)
  : SE world (option response) :=
  token_login_required get_book_by_id bearer (utcnow req) id.

Definition POST_book (bearer : string) (req : request)
  : SE world (option response) :=
  token_login_required (require_admin (post_book req)) bearer (utcnow req) tt.

Definition PUT_book (bearer : string) (req : request) (id : Z)
  : SE world (option response) :=
  token_login_required (require_admin (put_book req)) bearer (utcnow req) id.

End App.

(** A formatter for the scalars, for running the views on examples. *)
Definition show (v : value) : string :=
  match v with
  | VNone => "None"
  | VBool true => "True"
  | VBool false => "False"
  | VInt n => pretty n
  | VStr s => s
  | _ => "<object>"
  end.

(** ** The other methods and views *)

(** [Book.delete(self)]: [db.session.delete(self)], then the commit. *)
Definition Book_delete (self : nat) : SE world unit :=
  modify (with_session_books (delete self));;
  commit.

Section OtherViews.

Variable format : value → string.

(** [delete_user(id)].  [User] defines no [delete] (only [Book] does), so
    the call on the object found raises [AttributeError]. *)
Definition delete_user : view Z := λ id,
  w ← get_state;
  match get_user id (session_users w) with
  | None => abort 404
  | Some (user_to_delete, _) =>
      on_user user_to_delete (call None "delete" []);;
      mret (Some (make_response
                    (VStr ("User with id " +:+ format (VInt id)
                           +:+ " has been deleted"))
                    200))
  end.

(** [delete_book(id)], the view of DELETE /item/<id>. *)
Definition delete_book : view Z := λ id,
  w ← get_state;
  match get_book id (session_books w) with
  | None => abort 404
  | Some (book_to_delete, _) =>
      Book_delete book_to_delete;;
      mret (Some (make_response
                    (VStr ("Book with id: " +:+ format (VInt id)
                           +:+ " has been removed"))
                    200))
  end.

End OtherViews.

(** The view [get_book()] of GET /book; in a module of its own, as the
    name is taken by the primary-key lookup above. *)
Module Views.

Definition get_book : view unit := λ _,
  w ← get_state;
  let books := session_books w in
  let book_dicts := (λ book, VDict (Book_to_dict book)) <$> books in
  mret (Some (make_response (VDict {[ "books" := VList book_dicts ]}) 200)).

End Views.

Definition GET_book (bearer : string) (req : request)
  : SE world (option response) :=
  token_login_required Views.get_book bearer (utcnow req) tt.

Definition DELETE_user (format : value → string) (bearer : string)
    (req : request) (id : Z) : SE world (option response) :=
  token_login_required (require_admin (delete_user format)) bearer (utcnow req) id.

Definition DELETE_item (format : value → string) (bearer : string)
    (req : request) (id : Z) : SE world (option response) :=
  token_login_required (require_admin (delete_book format)) bearer (utcnow req) id.

(** ** Sample data

    Two users and a book, used to run the code on concrete requests:
    [alice] is an admin, [bob] is not; both tokens expire 100 seconds after
    the epoch. *)

Definition alice : User :=
  mkUser (Some 1) (VStr "A") (VStr "B") (VStr "a@b.com") (VStr "hash-a")
         (Some 0) (Some true) (Some "tok-alice") (Some (seconds 100)) None.
Definition bob : User :=
  mkUser (Some 2) (VStr "C") (VStr "D") (VStr "c@d.com") (VStr "hash-c")
         (Some 0) (Some false) (Some "tok-bob") (Some (seconds 100)) None.
(** A row whose token was written without an expiry. *)
Definition carol : User :=
  mkUser (Some 3) (VStr "E") (VStr "F") (VStr "e@f.com") (VStr "hash-e")
         (Some 0) (Some false) (Some "tok-carol") None None.
Definition a_book : Book :=
  mkBook (Some 1) (VStr "T") (VStr "X") (VInt 10) (VStr "S") (VStr "img.png").

Definition library : world :=
  mkWorld [alice; bob] [a_book] [alice; bob] [a_book] Unset.

(** The body of the book scenario and a profile body without [email]. *)
Definition book_fields : value :=
  VDict {[ "title" := VStr "T"; "author" := VStr "X"; "pages" := VInt 10;
           "summary" := VStr "S"; "image" := VStr "img.png" ]}.
Definition profile_without_email : value :=
  VDict {[ "first_name" := VStr "A2"; "last_name" := VStr "B2";
           "password" := VStr "pw"; "icon" := VStr "i.png" ]}.

(** [library] with a third row, [carol], whose token has no expiry. *)
Definition library_with_carol : world :=
  mkWorld [alice; bob; carol] [a_book] [alice; bob; carol] [a_book] Unset.

(** The state after [alice] was issued ["n1"] at second 50. *)
Definition library_after_issue : world :=
  snd (get_token 0 86400 (seconds 50) "n1" library).

(** A request by [alice], an admin whose token is valid at second 5. *)
Definition alice_sends (data : value) : request :=
  mkRequest data (seconds 5) "n1".

(** A row whose [is_admin] is NULL, and a second book. *)
Definition dave : User :=
  mkUser (Some 4) (VStr "G") (VStr "H") (VStr "g@h.com") (VStr "hash-g")
         (Some 0) None (Some "tok-dave") (Some (seconds 100)) None.
Definition b_book : Book :=
  mkBook (Some 2) (VStr "U") (VStr "Y") (VInt 20) (VStr "R") (VStr "b.png").
Definition two_books : world :=
  mkWorld [alice; bob; dave] [a_book; b_book] [alice; bob; dave]
          [a_book; b_book] Unset.

(** The six keys [register_user] asks for, and the five of [post_book]. *)
Definition user_keys : list string :=
  ["first_name"; "last_name"; "email"; "password"; "created_on"; "is_admin"].
Definition book_keys : list string :=
  ["title"; "author"; "pages"; "summary"; "image"].

(** ** Notions used in the statements *)

(** The row after [get_token] wrote a new token. *)
Definition issued (u : User) (exp now : Z) (fresh : string) : User :=
  set_token_exp (Some (now + seconds exp)) (set_token (Some fresh) u).

(** The test of the [if] in [get_token], when it can be evaluated. *)
Definition reusable (u : User) (now : Z) : bool :=
  truthy (of_str (token u))
  && match token_exp u with
     | Some e => bool_decide (now + seconds 60 < e)
     | None => false
     end.

(** An authentication callback's outcome that Flask-HTTPAuth takes as a
    successful login. *)
Definition accepted (o : outcome value) : bool :=
  match o with
  | Return v => negb (rejected v)
  | _ => false
  end.

(** The data model's invariant on one row: a token comes with an expiry. *)
Definition token_has_expiry (u : User) : Prop :=
  token u ≠ None → token_exp u ≠ None.

(** A hash comparison for the examples: the stored hash of [pw] is
    ["hash-" ++ pw]. *)
Definition sample_check : method User := λ args self,
  match args with
  | [VStr pw] =>
      (Return (VBool (bool_decide (password self = VStr ("hash-" +:+ pw)))),
       self)
  | _ => (Raise (TypeError "check_hashed_password() takes one argument"), self)
  end.
Definition with_sample_check : members := mkMembers None (Some sample_check) None.

(** Every row with a token has an expiry, pending and committed. *)
Definition tokens_have_expiry (w : world) : Prop :=
  Forall token_has_expiry (session_users w)
  ∧ Forall token_has_expiry (stored_users w).

(** The state after a successful commit. *)
Definition committed (w : world) : world :=
  mkWorld (session_users w) (session_books w) (session_users w)
          (session_books w) (g_current_user w).

(** The end of a request and the start of the next one: the session is
    removed, which rolls back whatever was not committed, and [g] is new. *)
Definition next_request (w : world) : world :=
  mkWorld (stored_users w) (stored_books w) (stored_users w) (stored_books w)
          Unset.

(** The range of a [datetime], years 1 to 9999, in microseconds since the
    epoch; arithmetic that leaves it raises [OverflowError] in Python. *)
Definition datetime_min : Z := -62135596800000000.
Definition datetime_max : Z := 253402300799999999.
Definition is_datetime (t : Z) : Prop := datetime_min ≤ t ≤ datetime_max.

(** The keys SQLite takes: a key outside 64 bits makes the query raise
    [OverflowError]. *)
Definition int64 (id : Z) : Prop := - 2 ^ 63 ≤ id < 2 ^ 63.

(** A new title for book 1. *)
Definition retitled_fields : value :=
  VDict {[ "title" := VStr "T2"; "author" := VStr "X"; "pages" := VInt 10;
           "summary" := VStr "S"; "image" := VStr "img.png" ]}.

(** * Properties *)

Ltac se_unfold :=
  unfold mbind, mret, se_mbind, se_ret, se_bind, outcome_mbind, outcome_ret,
    outcome_bind, lift, get_state, modify, abort, raise in *.

(** ** Token resolution *)

Lemma first_by_token_none (t : option string) (rows : list User) :
  Forall (λ u, token u ≠ t) rows → first_by_token t rows = None.
Proof. intros H. unfold first_by_token. by apply list_find_None. Qed.

Lemma check_token_unfold (t : option string) (now : Z) (w : world) :
  check_token t now w =
    match first_by_token t (session_users w) with
    | None => (Return None, w)
    | Some (i, user) =>
        match token_exp user with
        | None => (Raise (TypeError "'<' between NoneType and datetime"), w)
        | Some e => if bool_decide (e < now) then (Return None, w)
                    else (Return (Some i), w)
        end
    end.
Proof.
  unfold check_token. se_unfold.
  destruct (first_by_token t (session_users w)) as [[i u]|]; [|done].
  destruct (token_exp u) as [e|]; [|done].
  by case_bool_decide.
Qed.

(** C1 (as amended).  [check_token] answers not-found, and changes
    nothing, when no user row carries the token, and when the row the
    lookup finds has an expiry strictly before the current time, so in
    particular once the clock has passed the expiry. *)
Theorem check_token_not_found (t : option string) (now : Z) (w : world) :
  (Forall (λ u, token u ≠ t) (session_users w) →
   check_token t now w = (Return None, w))
  ∧ (∀ i u e,
       first_by_token t (session_users w) = Some (i, u) →
       token_exp u = Some e →
       e < now →
       check_token t now w = (Return None, w)).
Proof.
  split.
  - intros H. rewrite check_token_unfold, first_by_token_none; done.
  - intros i u e Hfind He Hlt. rewrite check_token_unfold, Hfind, He.
    by rewrite bool_decide_eq_true_2.
Qed.

(** Both cases at work: nobody holds ["tok-eve"]; [alice]'s token is
    looked up one microsecond after its expiry. *)
Lemma check_token_not_found_witness :
  check_token (Some "tok-eve") (seconds 5) library = (Return None, library)
  ∧ check_token (Some "tok-alice") (seconds 100 + 1) library
    = (Return None, library).
Proof.
  split.
  - apply (proj1 (check_token_not_found (Some "tok-eve") (seconds 5) library)).
    compute_done.
  - apply (proj2 (check_token_not_found (Some "tok-alice") (seconds 100 + 1)
                    library) 0%nat alice (seconds 100)).
    + reflexivity.
    + reflexivity.
    + reflexivity.
Defined.

(** C1, the claim as stated fails: at the very instant of expiry the
    expiry is not strictly greater than the current time, and the token
    still resolves to its user. *)
Lemma check_token_at_the_expiry_instant :
  first_by_token (Some "tok-alice") (session_users library) = Some (0%nat, alice)
  ∧ token_exp alice = Some (seconds 100)
  ∧ ¬ (seconds 100 < seconds 100)
  ∧ check_token (Some "tok-alice") (seconds 100) library
    = (Return (Some 0%nat), library).
Proof. split_and!; [reflexivity|reflexivity|lia|reflexivity]. Qed.

(** ** The admin guard *)

Lemma require_admin_unfold {Args A : Type} (f : Args → SE world A)
    (args : Args) (w : world) (i : nat) (u : User) :
  g_current_user w = Ref i →
  session_users w !! i = Some u →
  require_admin f args w
  = if negb (truthy (of_bool (is_admin u))) then (Abort 403, w) else f args w.
Proof.
  intros Hg Hu. unfold require_admin, deref_user. se_unfold.
  rewrite Hg, Hu. by destruct (negb _).
Qed.

(** C2.  With a non-admin identity bound to the request, the guard aborts
    with 403 and the state is untouched, whatever the wrapped handler and
    its arguments are; with an admin identity the guard is the handler. *)
Theorem require_admin_guard {Args A : Type} (f : Args → SE world A)
    (args : Args) (w : world) (i : nat) (u : User) :
  g_current_user w = Ref i →
  session_users w !! i = Some u →
  (is_admin u = Some false → require_admin f args w = (Abort 403, w))
  ∧ (is_admin u = Some true → require_admin f args w = f args w).
Proof.
  intros Hg Hu. rewrite (require_admin_unfold f args w i u Hg Hu).
  split; intros ->; reflexivity.
Qed.

(** [bob], who is no admin, is stopped before [put_book] runs; [alice]
    gets exactly what [put_book] does. *)
Lemma require_admin_guard_witness :
  let req := mkRequest book_fields (seconds 5) "fresh" in
  require_admin (put_book show app_py req) 1
    (set_g_current_user (Ref 1) library)
  = (Abort 403, set_g_current_user (Ref 1) library)
  ∧ require_admin (put_book show app_py req) 1
      (set_g_current_user (Ref 0) library)
    = put_book show app_py req 1 (set_g_current_user (Ref 0) library).
Proof.
  intros req. split.
  - apply (proj1 (require_admin_guard (put_book show app_py req) 1
                    (set_g_current_user (Ref 1) library) 1%nat bob
                    eq_refl eq_refl)).
    reflexivity.
  - apply (proj2 (require_admin_guard (put_book show app_py req) 1
                    (set_g_current_user (Ref 0) library) 0%nat alice
                    eq_refl eq_refl)).
    reflexivity.
Defined.

(** A row whose [is_admin] is NULL is refused as well. *)
Lemma require_admin_null_flag {Args A : Type} (f : Args → SE world A)
    (args : Args) (w : world) (i : nat) (u : User) :
  g_current_user w = Ref i →
  session_users w !! i = Some u →
  is_admin u = None →
  require_admin f args w = (Abort 403, w).
Proof.
  intros Hg Hu Hn. by rewrite (require_admin_unfold f args w i u Hg Hu), Hn.
Qed.

Lemma verify_token_resolves (bearer : string) (now : Z) (w : world) (i : nat) :
  bearer ≠ "" →
  check_token (Some bearer) now w = (Return (Some i), w) →
  verify_token bearer now w = (Return (Some i), set_g_current_user (Ref i) w).
Proof.
  intros Hne Hck. unfold verify_token. se_unfold. cbn [truthy].
  destruct (String.eqb_spec bearer "") as [->|_]; [done|].
  cbn [negb]. by rewrite Hck.
Qed.

(** The guard behind the bearer authentication: the four guarded routes
    answer 403 to a valid token of a non-admin, whatever the body. *)
Lemma guarded_routes_forbidden (format : value → string) (defs : members)
    (bearer : string) (req : request) (id : Z) (w : world) (i : nat) (u : User) :
  bearer ≠ "" →
  check_token (Some bearer) (utcnow req) w = (Return (Some i), w) →
  session_users w !! i = Some u →
  is_admin u = Some false →
  let w' := set_g_current_user (Ref i) w in
  POST_user format defs bearer req id w = (Abort 403, w')
  ∧ PUT_user format defs bearer req id w = (Abort 403, w')
  ∧ POST_book format defs bearer req w = (Abort 403, w')
  ∧ PUT_book format defs bearer req id w = (Abort 403, w').
Proof.
  intros Hne Hck Hu Hadm w'.
  assert (Hg : g_current_user w' = Ref i) by reflexivity.
  assert (Hu' : session_users w' !! i = Some u) by exact Hu.
  unfold POST_user, PUT_user, POST_book, PUT_book, token_login_required.
  split_and!.
  all: change (mbind ?k ?c) with (se_bind c k); unfold se_bind.
  all: rewrite (verify_token_resolves _ _ _ _ Hne Hck).
  all: by rewrite (require_admin_unfold _ _ w' i u Hg Hu'), Hadm.
Qed.

(** ** Password verification *)

Lemma first_by_email_none (e : string) (rows : list User) :
  Forall (λ u, email u ≠ VStr e) rows → first_by_email e rows = None.
Proof. intros H. unfold first_by_email. by apply list_find_None. Qed.

Lemma verify_password_unfold (defs : members) (e pw : string) (w : world) :
  verify_password defs e pw w =
    match first_by_email e (session_users w) with
    | None => (Return (VBool false), w)
    | Some (i, _) =>
        on_user i (call (User_check_hashed_password defs)
                        "check_hashed_password" [VStr pw])
                (set_g_current_user (Ref i) w)
    end.
Proof.
  unfold verify_password. se_unfold.
  by destruct (first_by_email e (session_users w)) as [[i u]|].
Qed.

Lemma verify_password_outcome (defs : members) (e pw : string) (w : world)
    (i : nat) (u : User) :
  first_by_email e (session_users w) = Some (i, u) →
  fst (verify_password defs e pw w)
  = fst (call (User_check_hashed_password defs) "check_hashed_password"
              [VStr pw] u).
Proof.
  intros Hfind. rewrite verify_password_unfold, Hfind.
  apply list_find_Some in Hfind as (Hi & _ & _).
  unfold on_user. cbn [session_users set_g_current_user]. rewrite Hi.
  by destruct (call _ _ _ u).
Qed.

(** In app.py as it is, [User] has no [check_hashed_password]: for an
    email that matches a row the callback binds the user and raises. *)
Lemma verify_password_app_py (e pw : string) (w : world) (i : nat) (u : User) :
  first_by_email e (session_users w) = Some (i, u) →
  fst (verify_password app_py e pw w)
  = Raise (AttributeError "check_hashed_password").
Proof. intros Hfind. by rewrite (verify_password_outcome _ _ _ _ i u Hfind). Qed.

(** C3.  [verify_password] answers [False], and binds no identity, when
    no row has the email; and when a row has it, it succeeds only if that
    row's hash comparison accepts the plaintext: a comparison that is
    missing, raises or answers a false value is a failed login. *)
Theorem verify_password_fails_closed (defs : members) (e pw : string)
    (w : world) :
  (Forall (λ u, email u ≠ VStr e) (session_users w) →
   verify_password defs e pw w = (Return (VBool false), w))
  ∧ (∀ i u,
       first_by_email e (session_users w) = Some (i, u) →
       accepted (fst (call (User_check_hashed_password defs)
                           "check_hashed_password" [VStr pw] u)) = false →
       accepted (fst (verify_password defs e pw w)) = false).
Proof.
  split.
  - intros H. by rewrite verify_password_unfold, first_by_email_none.
  - intros i u Hfind Hrej. by rewrite (verify_password_outcome _ _ _ _ i u Hfind).
Qed.

(** An unknown email; [alice]'s email with a wrong password under the
    sample hash comparison; and [alice]'s email on app.py, where the
    comparison is missing. *)
Lemma verify_password_fails_closed_witness :
  verify_password with_sample_check "x@y.com" "a" library
  = (Return (VBool false), library)
  ∧ accepted (fst (verify_password with_sample_check "a@b.com" "b" library))
    = false
  ∧ accepted (fst (verify_password app_py "a@b.com" "a" library)) = false.
Proof.
  split_and!.
  - apply (proj1 (verify_password_fails_closed with_sample_check "x@y.com" "a"
                    library)).
    compute_done.
  - apply (proj2 (verify_password_fails_closed with_sample_check "a@b.com" "b"
                    library) 0%nat alice).
    + reflexivity.
    + reflexivity.
  - apply (proj2 (verify_password_fails_closed app_py "a@b.com" "a" library)
             0%nat alice).
    + reflexivity.
    + reflexivity.
Defined.

(** The sample comparison does accept the right password, so the second
    part of the theorem is about a callback that can succeed. *)
Example verify_password_sample_accepts :
  accepted (fst (verify_password with_sample_check "a@b.com" "a" library)) = true.
Proof. reflexivity. Qed.

(** ** Token issuance *)

Lemma get_token_reuse_unfold (self : nat) (exp now : Z) (fresh : string)
    (w : world) (u : User) (t : string) (e : Z) :
  session_users w !! self = Some u →
  token u = Some t →
  t ≠ "" →
  token_exp u = Some e →
  now + seconds 60 < e →
  get_token self exp now fresh w = (Return (Some t), w).
Proof.
  intros Hu Ht Hne He Hlt. unfold get_token, deref_user. se_unfold.
  rewrite Hu, Ht, He. cbn [of_str truthy].
  destruct (String.eqb_spec t "") as [->|_]; [done|]. cbn [negb].
  by rewrite bool_decide_eq_true_2.
Qed.

Lemma get_token_issue_unfold (self : nat) (exp now : Z) (fresh : string)
    (w : world) (u : User) :
  session_users w !! self = Some u →
  (truthy (of_str (token u)) = true → ∃ e, token_exp u = Some e) →
  reusable u now = false →
  get_token self exp now fresh w =
    let w' := with_session_users (<[self := issued u exp now fresh]>) w in
    match commit w' with
    | (Return _, w'') => (Return (Some fresh), w'')
    | (Abort st, w'') => (Abort st, w'')
    | (Raise err, w'') => (Raise err, w'')
    end.
Proof.
  intros Hu Hexp Hno. unfold get_token, deref_user. se_unfold.
  rewrite Hu. unfold reusable in Hno.
  assert (Hi : (self < length (session_users w))%nat) by eauto using lookup_lt_Some.
  assert (Hreuse :
    (if truthy (of_str (token u))
     then match token_exp u with
          | Some e => Return (bool_decide (now + seconds 60 < e))
          | None => Raise (TypeError "'>' between NoneType and datetime")
          end
     else Return false) = Return false).
  { destruct (truthy (of_str (token u))); [|done].
    destruct Hexp as [e He]; [done|]. rewrite He in Hno |- *.
    cbn in Hno. by rewrite Hno. }
  rewrite Hreuse. unfold on_user. rewrite Hu. cbn [session_users with_session_users].
  rewrite list_lookup_insert_eq by done.
  unfold with_session_users, issued. cbn.
  rewrite list_insert_insert_eq.
  unfold commit. cbn.
  case_decide; [|done].
  cbn. by rewrite list_lookup_insert_eq.
Qed.

Lemma get_token_type_error (self : nat) (exp now : Z) (fresh : string)
    (w : world) (u : User) :
  session_users w !! self = Some u →
  truthy (of_str (token u)) = true →
  token_exp u = None →
  get_token self exp now fresh w
  = (Raise (TypeError "'>' between NoneType and datetime"), w).
Proof.
  intros Hu Ht He. unfold get_token, deref_user. se_unfold.
  by rewrite Hu, Ht, He.
Qed.

Lemma truthy_of_str (o : option string) :
  truthy (of_str o) = true ↔ ∃ t, o = Some t ∧ t ≠ "".
Proof.
  destruct o as [t|]; cbn.
  - destruct (String.eqb_spec t "") as [->|Hne]; cbn.
    + split; [done|]. by intros (t & [= <-] & Hne).
    + split; [eauto|done].
  - split; [done|]. by intros (t & Ht & _).
Qed.

(** The three ways a call of [get_token] on a live object can go. *)
Lemma get_token_cases (self : nat) (exp now : Z) (fresh : string)
    (w : world) (u : User) :
  session_users w !! self = Some u →
  (truthy (of_str (token u)) = true ∧ token_exp u = None
   ∧ get_token self exp now fresh w
     = (Raise (TypeError "'>' between NoneType and datetime"), w))
  ∨ (reusable u now = true ∧ get_token self exp now fresh w = (Return (token u), w))
  ∨ (reusable u now = false
     ∧ get_token self exp now fresh w =
         match commit (with_session_users (<[self := issued u exp now fresh]>) w) with
         | (Return _, w'') => (Return (Some fresh), w'')
         | (Abort st, w'') => (Abort st, w'')
         | (Raise err, w'') => (Raise err, w'')
         end).
Proof.
  intros Hu.
  destruct (truthy (of_str (token u))) eqn:Ht.
  - destruct (token_exp u) as [e|] eqn:He.
    + destruct (decide (now + seconds 60 < e)) as [Hlt|Hge].
      * right; left. apply truthy_of_str in Ht as (t & Ht & Hne). split.
        { unfold reusable. rewrite Ht, He. cbn [of_str truthy].
          destruct (String.eqb_spec t "") as [->|_]; [done|].
          by rewrite bool_decide_eq_true_2. }
        rewrite Ht. by eapply get_token_reuse_unfold.
      * right; right.
        assert (Hno : reusable u now = false).
        { unfold reusable. rewrite He, Ht. by rewrite bool_decide_eq_false_2. }
        split; [done|]. apply (get_token_issue_unfold _ _ _ _ _ u); eauto.
    + left. split_and!; [done..|]. by apply (get_token_type_error _ _ _ _ _ u).
  - right; right.
    assert (Hno : reusable u now = false) by (unfold reusable; by rewrite Ht).
    split; [done|]. apply (get_token_issue_unfold _ _ _ _ _ u); [done| |done].
    intros Ht'. congruence.
Qed.

(** What a returning call leaves behind: the object carries the returned
    token, and that token is a non-empty string. *)
Lemma get_token_result (self : nat) (exp now : Z) (fresh : string)
    (w w1 : world) (u : User) (r : option string) :
  session_users w !! self = Some u →
  fresh ≠ "" →
  get_token self exp now fresh w = (Return r, w1) →
  ∃ u1 t, session_users w1 !! self = Some u1 ∧ token u1 = Some t ∧ r = Some t
          ∧ t ≠ ""
          ∧ (reusable u now = true → w1 = w ∧ u1 = u)
          ∧ (reusable u now = false → u1 = issued u exp now fresh).
Proof.
  intros Hu Hfresh Hcall.
  assert (Hi : (self < length (session_users w))%nat) by eauto using lookup_lt_Some.
  destruct (get_token_cases self exp now fresh w u Hu)
    as [(_ & _ & Heq)|[(Hre & Heq)|(Hno & Heq)]]; rewrite Heq in Hcall.
  - done.
  - injection Hcall as <- <-.
    assert (Ht : truthy (of_str (token u)) = true).
    { unfold reusable in Hre. by apply andb_prop in Hre as [? _]. }
    apply truthy_of_str in Ht as (t & Ht & Hne).
    exists u, t. split_and!; try done. congruence.
  - unfold commit in Hcall. case_decide; [|done].
    injection Hcall as <- <-.
    exists (issued u exp now fresh), fresh. split_and!; try done.
    + cbn. by rewrite list_lookup_insert_eq.
    + congruence.
Qed.

(** C4 (as amended).  A user who holds a non-empty token with more than
    60 seconds to live gets that token back, and nothing is written.  A
    second call gives the token of the first whenever that token still has
    more than 60 seconds to live at the second call; this is so when the
    first call issued a new token of lifetime [L] and the second comes less
    than [L - 60] seconds later. *)
Theorem get_token_reuse (self : nat) (w : world) (u : User) :
  session_users w !! self = Some u →
  (∀ t e exp now fresh,
     token u = Some t → t ≠ "" → token_exp u = Some e →
     now + seconds 60 < e →
     get_token self exp now fresh w = (Return (Some t), w))
  ∧ (∀ L now1 now2 fresh1 fresh2 r1 w1 u1 e1,
       fresh1 ≠ "" →
       get_token self L now1 fresh1 w = (Return r1, w1) →
       session_users w1 !! self = Some u1 →
       token_exp u1 = Some e1 →
       now2 + seconds 60 < e1 →
       get_token self L now2 fresh2 w1 = (Return r1, w1))
  ∧ (∀ L now1 now2 fresh1 fresh2 r1 w1,
       fresh1 ≠ "" →
       reusable u now1 = false →
       get_token self L now1 fresh1 w = (Return r1, w1) →
       now2 - now1 < seconds (L - 60) →
       r1 = Some fresh1
       ∧ get_token self L now2 fresh2 w1 = (Return (Some fresh1), w1)).
Proof.
  intros Hu. split_and!.
  - intros t e exp now fresh Ht Hne He Hlt. by eapply get_token_reuse_unfold.
  - intros L now1 now2 fresh1 fresh2 r1 w1 u1 e1 Hfresh Hcall Hu1 He1 Hlt.
    destruct (get_token_result _ _ _ _ _ _ _ _ Hu Hfresh Hcall)
      as (u1' & t & Hu1' & Ht & -> & Hne & _).
    assert (u1' = u1) as -> by congruence.
    by eapply get_token_reuse_unfold.
  - intros L now1 now2 fresh1 fresh2 r1 w1 Hfresh Hno Hcall Hwithin.
    destruct (get_token_result _ _ _ _ _ _ _ _ Hu Hfresh Hcall)
      as (u1 & t & Hu1 & Ht & -> & Hne & _ & Hissued).
    specialize (Hissued Hno). subst u1. cbn in Ht.
    injection Ht as <-. split; [done|].
    eapply get_token_reuse_unfold; [done|done|done|reflexivity|].
    unfold seconds in *. lia.
Qed.

(** At second 10 [alice]'s token has 90 seconds left and is reused;
    at second 50 it has only 50 left, ["n1"] is issued, and a call 950
    seconds later returns ["n1"] again. *)
Lemma get_token_reuse_witness :
  get_token 0 86400 (seconds 10) "n1" library
  = (Return (Some "tok-alice"), library)
  ∧ get_token 0 86400 (seconds 1000) "n2" library_after_issue
    = (Return (Some "n1"), library_after_issue).
Proof.
  split.
  - apply (proj1 (get_token_reuse 0 library alice eq_refl)
             "tok-alice" (seconds 100) 86400 (seconds 10) "n1");
      [reflexivity|discriminate|reflexivity|reflexivity].
  - apply (proj2 (proj2 (get_token_reuse 0 library alice eq_refl))
             86400 (seconds 50) (seconds 1000) "n1" "n2" (Some "n1")
             library_after_issue);
      [discriminate|reflexivity|reflexivity|reflexivity].
Defined.

(** C4, the claim as stated fails when the first call reused an older
    token: [alice]'s token expires at second 100; a call at second 0
    returns it, a call 50 seconds later (within 86400 - 60 seconds of the
    first) returns the newly generated ["n2"]. *)
Lemma get_token_twice_after_reuse_differs :
  get_token 0 86400 0 "n1" library = (Return (Some "tok-alice"), library)
  ∧ seconds 50 - 0 < seconds (86400 - 60)
  ∧ fst (get_token 0 86400 (seconds 50) "n2" library) = Return (Some "n2").
Proof. split_and!; reflexivity. Qed.

(** ** Revocation *)

Lemma list_find_insert_same {A} (P : A → Prop) `{!∀ x, Decision (P x)}
    (l : list A) (i : nat) (x y : A) :
  list_find P l = Some (i, x) →
  P y →
  list_find P (<[i := y]> l) = Some (i, y).
Proof.
  intros (Hi & _ & Hleast)%list_find_Some Hy. apply list_find_Some.
  split_and!.
  - apply list_lookup_insert_eq. eauto using lookup_lt_Some.
  - done.
  - intros j z Hj Hlt. rewrite list_lookup_insert_ne in Hj by lia. eauto.
Qed.

(** Under the UNIQUE index a non-null token is found at its own row. *)
Lemma unique_tokens_first (rows : list User) (i : nat) (u : User) (t : string) :
  unique_tokens rows →
  rows !! i = Some u →
  token u = Some t →
  first_by_token (Some t) rows = Some (i, u).
Proof.
  unfold unique_tokens, first_by_token.
  revert i. induction rows as [|y rows IH]; intros i Hnd Hi Ht; [done|].
  cbn [list_find]. destruct i as [|i]; cbn in Hi.
  - injection Hi as ->. by rewrite decide_True.
  - cbn [omap list_omap] in Hnd. fold (omap token rows) in Hnd. case_decide as Hy.
    + rewrite Hy in Hnd. apply NoDup_cons in Hnd as [Hnotin _].
      destruct Hnotin. apply list_elem_of_omap. exists u.
      split; [|done]. by eapply list_elem_of_lookup_2.
    + assert (Hnd' : NoDup (omap token rows)).
      { destruct (token y); [by apply NoDup_cons in Hnd as [_ ?]|done]. }
      by rewrite (IH i Hnd' Hi Ht).
Qed.

Lemma revoke_token_unfold (self : nat) (now : Z) (w : world) (u : User) :
  session_users w !! self = Some u →
  revoke_token self now w
  = (Return tt,
     with_session_users (<[self := set_token_exp (Some (now - seconds 61)) u]>) w).
Proof. intros Hu. unfold revoke_token, on_user. se_unfold. by rewrite Hu. Qed.

(** Within the session that revoked it.  [revoke_token] moves the expiry
    of the object to 61 seconds before the current time, a time in the
    past, and keeps the token; a lookup of that token in the same session,
    at any later time, answers not-found.  The user is the row its own
    token leads to, as the UNIQUE index on the column guarantees for a
    token that is not NULL. *)
Theorem revoke_token_then_check_token (self : nat) (u : User)
    (now later : Z) (w : world) :
  first_by_token (token u) (session_users w) = Some (self, u) →
  now ≤ later →
  let u1 := set_token_exp (Some (now - seconds 61)) u in
  let w1 := with_session_users (<[self := u1]>) w in
  revoke_token self now w = (Return tt, w1)
  ∧ session_users w1 !! self = Some u1
  ∧ token_exp u1 = Some (now - seconds 61)
  ∧ now - seconds 61 < now
  ∧ token u1 = token u
  ∧ check_token (token u) later w1 = (Return None, w1).
Proof.
  intros Hfind Hlater u1 w1.
  pose proof Hfind as (Hu & _ & _)%list_find_Some.
  split_and!.
  - by apply revoke_token_unfold.
  - cbn. apply list_lookup_insert_eq. eauto using lookup_lt_Some.
  - done.
  - unfold seconds. lia.
  - done.
  - rewrite check_token_unfold. unfold first_by_token in *. cbn [w1 session_users with_session_users].
    rewrite (list_find_insert_same _ _ _ _ u1 Hfind) by done.
    cbn [u1 token_exp set_token_exp]. rewrite bool_decide_eq_true_2; [done|].
    unfold seconds. lia.
Qed.

(** [bob]'s token, valid until second 100, is revoked at second 20 and
    looked up at second 21 in the same session. *)
Lemma revoke_token_then_check_token_witness :
  let bob1 := set_token_exp (Some (seconds 20 - seconds 61)) bob in
  let w1 := with_session_users (<[1%nat := bob1]>) library in
  check_token (Some "tok-bob") (seconds 21) library = (Return (Some 1%nat), library)
  ∧ revoke_token 1 (seconds 20) library = (Return tt, w1)
  ∧ check_token (Some "tok-bob") (seconds 21) w1 = (Return None, w1).
Proof.
  pose proof (revoke_token_then_check_token 1 bob (seconds 20) (seconds 21)
                library eq_refl) as H.
  cbv zeta in *. split_and!.
  - reflexivity.
  - apply H. unfold seconds. lia.
  - apply H. unfold seconds. lia.
Defined.

(** [revoke_token] does not commit: the committed rows are as before. *)
Lemma revoke_token_pending (self : nat) (now : Z) (w : world) :
  stored_users (snd (revoke_token self now w)) = stored_users w.
Proof.
  unfold revoke_token, on_user. se_unfold.
  by destruct (session_users w !! self).
Qed.

(** For every user and state, the next request starts from what it would
    have started from without the revocation. *)
Lemma revoke_token_not_durable (self : nat) (now : Z) (w : world) :
  next_request (snd (revoke_token self now w)) = next_request w.
Proof.
  unfold revoke_token, on_user. se_unfold.
  by destruct (session_users w !! self).
Qed.


(** ** Comparisons with a missing expiry *)

Lemma token_has_expiry_truthy (rows : list User) (i : nat) (u : User) :
  Forall token_has_expiry rows →
  rows !! i = Some u →
  token u ≠ None →
  ∃ e, token_exp u = Some e.
Proof.
  intros Hinv Hu Ht. eapply Forall_lookup_1 in Hinv; [|done].
  specialize (Hinv Ht). destruct (token_exp u) as [e|]; [eauto|done].
Qed.

(** C9.  When every row with a token has an expiry, neither [get_token]
    nor [check_token] of a token compares a missing expiry with a time:
    they do not raise [TypeError].  Without that, a row with a non-empty
    token and no expiry makes both comparisons fail with [TypeError]. *)
Theorem expiry_comparison_defined :
  (∀ self exp now fresh w msg,
     Forall token_has_expiry (session_users w) →
     fst (get_token self exp now fresh w) ≠ Raise (TypeError msg))
  ∧ (∀ t now w msg,
       Forall token_has_expiry (session_users w) →
       fst (check_token (Some t) now w) ≠ Raise (TypeError msg))
  ∧ (∀ self exp now fresh w u t,
       session_users w !! self = Some u →
       token u = Some t → t ≠ "" → token_exp u = None →
       get_token self exp now fresh w
       = (Raise (TypeError "'>' between NoneType and datetime"), w))
  ∧ (∀ t now w i u,
       first_by_token (Some t) (session_users w) = Some (i, u) →
       token_exp u = None →
       check_token (Some t) now w
       = (Raise (TypeError "'<' between NoneType and datetime"), w)).
Proof.
  split_and!.
  - intros self exp now fresh w msg Hinv.
    destruct (session_users w !! self) as [u|] eqn:Hu.
    + destruct (get_token_cases self exp now fresh w u Hu)
        as [(Ht & He & _)|[(_ & ->)|(_ & ->)]].
      * apply truthy_of_str in Ht as (t & Ht & _).
        destruct (token_has_expiry_truthy _ _ _ Hinv Hu) as [e He']; congruence.
      * done.
      * unfold commit. by case_decide.
    + unfold get_token, deref_user. se_unfold. by rewrite Hu.
  - intros t now w msg Hinv. rewrite check_token_unfold.
    destruct (first_by_token (Some t) (session_users w)) as [[i u]|] eqn:Hfind;
      [|done].
    apply list_find_Some in Hfind as (Hu & Ht & _).
    destruct (token_has_expiry_truthy _ _ _ Hinv Hu) as [e ->]; [congruence|].
    by case_bool_decide.
  - intros self exp now fresh w u t Hu Ht Hne He.
    apply (get_token_type_error _ _ _ _ _ u); [done| |done].
    apply truthy_of_str. eauto.
  - intros t now w i u Hfind He. by rewrite check_token_unfold, Hfind, He.
Qed.

(** In [library] every token has an expiry; [carol]'s has none. *)
Lemma expiry_comparison_defined_witness :
  fst (get_token 0 86400 (seconds 10) "n1" library)
  ≠ Raise (TypeError "'>' between NoneType and datetime")
  ∧ fst (check_token (Some "tok-bob") (seconds 10) library)
    ≠ Raise (TypeError "'<' between NoneType and datetime")
  ∧ get_token 2 86400 (seconds 10) "n1" library_with_carol
    = (Raise (TypeError "'>' between NoneType and datetime"), library_with_carol)
  ∧ check_token (Some "tok-carol") (seconds 10) library_with_carol
    = (Raise (TypeError "'<' between NoneType and datetime"), library_with_carol).
Proof.
  destruct expiry_comparison_defined as (Hget & Hcheck & Hget' & Hcheck').
  split_and!.
  - apply Hget. repeat constructor; discriminate.
  - apply Hcheck. repeat constructor; discriminate.
  - apply (Hget' _ _ _ _ _ carol "tok-carol"); [reflexivity|reflexivity|discriminate|reflexivity].
  - apply (Hcheck' _ _ _ 2%nat carol); reflexivity.
Defined.

(** ** Views *)

(** Neither class has an attribute [id]. *)
Lemma User_attrs_no_id (u : User) : User_attrs u !! "id" = None.
Proof. unfold User_attrs. by destruct (icon u). Qed.

Lemma Book_attrs_no_id (b : Book) : Book_attrs b !! "id" = None.
Proof. done. Qed.

Lemma User_to_dict_raises (u : User) :
  User_to_dict u = Raise (AttributeError "id").
Proof. unfold User_to_dict, getattr. by rewrite User_attrs_no_id. Qed.

(** *** POST /book *)

(** C6, the scenario on app.py.  The body passes the key check, and the
    call [book.from_dict()] raises: [Book] has no such method.  No row is
    added, pending or committed, and the id a new book would have got
    answers 404. *)
Lemma POST_book_scenario :
  POST_book show app_py "tok-alice" (alice_sends book_fields) library
  = (Raise (AttributeError "from_dict"), set_g_current_user (Ref 0) library)
  ∧ fst (GET_book_by_id "tok-alice" (alice_sends VNone) 2
           (set_g_current_user (Ref 0) library))
    = Abort 404.
Proof. split; reflexivity. Qed.

(** On app.py [post_book] never returns and never changes the state. *)
Lemma post_book_app_py (format : value → string) (req : request) (w : world) :
  snd (post_book format app_py req tt w) = w
  ∧ ∀ r, fst (post_book format app_py req tt w) ≠ Return r.
Proof.
  unfold post_book. se_unfold.
  destruct (all_in (json req) _) as [[]| |]; cbn; split; done.
Qed.

(** Whatever [from_dict] is, [post_book] does not hand the body to it:
    two bodies that pass the key check have the same effect. *)
Lemma post_book_ignores_the_fields (format : value → string) (defs : members)
    (req req' : request) (w : world) :
  let keys := ["title"; "author"; "pages"; "summary"; "image"] in
  all_in (json req) keys = Return true →
  all_in (json req') keys = Return true →
  post_book format defs req tt w = post_book format defs req' tt w.
Proof.
  intros keys Hreq Hreq'. unfold post_book. se_unfold.
  fold keys. by rewrite Hreq, Hreq'.
Qed.

(** *** PUT /user/<id> *)

Lemma subscript_dict (d : gmap string value) (key : string) :
  subscript (VDict d) key
  = match d !! key with Some v => Return v | None => Raise (KeyError key) end.
Proof. done. Qed.

(** A body without [email] makes [from_dict] raise [KeyError], whatever
    the hashing method is; the first two assignments have happened. *)
Lemma User_from_dict_without_email (defs : members) (d : gmap string value)
    (v1 v2 : value) (u : User) :
  d !! "first_name" = Some v1 →
  d !! "last_name" = Some v2 →
  d !! "email" = None →
  User_from_dict defs (VDict d) u
  = (Raise (KeyError "email"), set_last_name v2 (set_first_name v1 u)).
Proof.
  intros H1 H2 H3. unfold User_from_dict. se_unfold.
  by rewrite !subscript_dict, H1, H2, H3.
Qed.

(** [put_user] has no key check: for an existing user and a body without
    [email] the [KeyError] of [from_dict] leaves the view, and nothing is
    committed. *)
Lemma put_user_without_email (format : value → string) (defs : members)
    (req : request) (id : Z) (w : world) (i : nat) (u : User)
    (d : gmap string value) (v1 v2 : value) :
  json req = VDict d →
  d !! "first_name" = Some v1 →
  d !! "last_name" = Some v2 →
  d !! "email" = None →
  get_user id (session_users w) = Some (i, u) →
  fst (put_user format defs req id w) = Raise (KeyError "email")
  ∧ stored_users (snd (put_user format defs req id w)) = stored_users w.
Proof.
  intros Hd H1 H2 H3 Hget. unfold put_user. se_unfold. rewrite Hget.
  apply list_find_Some in Hget as (Hu & _ & _).
  unfold on_user. rewrite Hu, Hd.
  by rewrite (User_from_dict_without_email defs d v1 v2 u H1 H2 H3).
Qed.

(** C7, the scenario on app.py.  [alice] sends a profile without [email]
    for [bob]: PUT /user/2 ends in an uncaught [KeyError], not in the
    abort that POST /user/2 answers to the same body. *)
Lemma PUT_user_without_email_scenario :
  fst (PUT_user show app_py "tok-alice" (alice_sends profile_without_email) 2
         library)
  = Raise (KeyError "email")
  ∧ fst (POST_user show app_py "tok-alice" (alice_sends profile_without_email) 2
           library)
    = Abort 404.
Proof. split; reflexivity. Qed.

(** *** GET /login *)

(** [get_login] never returns: after [get_token], [to_dict] reads
    [self.id]. *)
Lemma get_login_never_returns (req : request) (w : world) :
  ∀ r, fst (get_login req tt w) ≠ Return r.
Proof.
  intros r. unfold get_login, the_current_user. se_unfold.
  destruct (g_current_user w) as [| |i]; [done..|].
  destruct (get_token i 86400 (utcnow req) (token_urlsafe req) w)
    as [[tok| |] w1]; [|done..].
  unfold deref_user. destruct (session_users w1 !! i) as [u|]; [|done].
  by rewrite User_to_dict_raises.
Qed.

(** C8, on app.py and with a hash comparison added.  With the sample
    comparison [alice] logs in with the right password, [get_token]
    returns her token, and the view raises on [self.id]; on app.py the
    authentication callback raises before that.  No request to /login is
    answered with 200. *)
Lemma GET_login_scenario :
  fst (GET_login with_sample_check "a@b.com" "a" (alice_sends VNone) library)
  = Raise (AttributeError "id")
  ∧ fst (GET_login app_py "a@b.com" "a" (alice_sends VNone) library)
    = Raise (AttributeError "check_hashed_password")
  ∧ fst (get_login (alice_sends VNone) tt (set_g_current_user (Ref 0) library))
    = Raise (AttributeError "id").
Proof. split_and!; reflexivity. Qed.

(** *** PUT /book/<id> *)

(** C10, the scenario on app.py.  [alice] sends a new title for the
    existing book 1: [put_book] finds the book and the update step
    [book.from_dict(book_dict)] raises, as [Book] has no such method (the
    defect of POST /book).  Nothing is updated or saved: the session and
    the committed table hold the old row, and GET /book/1 answers the old
    title. *)
Lemma PUT_book_scenario :
  let w1 := set_g_current_user (Ref 0) library in
  get_book 1 (session_books library) = Some (0%nat, a_book)
  ∧ PUT_book show app_py "tok-alice" (alice_sends retitled_fields) 1 library
    = (Raise (AttributeError "from_dict"), w1)
  ∧ session_books w1 = [a_book]
  ∧ stored_books w1 = [a_book]
  ∧ GET_book_by_id "tok-alice" (alice_sends VNone) 1 w1
    = (Return (Some (make_response (VDict (Book_to_dict a_book)) 200)), w1)
  ∧ Book_to_dict a_book !! "title" = Some (VStr "T").
Proof. split_and!; reflexivity. Qed.

(** On app.py an existing id always ends in that [AttributeError]. *)
Lemma put_book_app_py (format : value → string) (req : request) (id : Z)
    (w : world) (i : nat) (b : Book) :
  get_book id (session_books w) = Some (i, b) →
  put_book format app_py req id w = (Raise (AttributeError "from_dict"), w).
Proof.
  intros Hget. unfold put_book. se_unfold. rewrite Hget.
  apply list_find_Some in Hget as (Hb & _ & _).
  unfold on_book. rewrite Hb. cbn.
  unfold with_session_books. rewrite list_insert_id by done. by destruct w.
Qed.

(** * Further properties *)

(** ** Bearer authentication *)

Lemma verify_token_unfold (bearer : string) (now : Z) (w : world) :
  verify_token bearer now w =
    if decide (bearer = "") then (Return None, set_g_current_user IsNone w)
    else match first_by_token (Some bearer) (session_users w) with
         | None => (Return None, set_g_current_user IsNone w)
         | Some (i, u) =>
             match token_exp u with
             | None => (Raise (TypeError "'<' between NoneType and datetime"), w)
             | Some e => if bool_decide (e < now)
                         then (Return None, set_g_current_user IsNone w)
                         else (Return (Some i), set_g_current_user (Ref i) w)
             end
         end.
Proof.
  unfold verify_token. se_unfold. cbn [truthy].
  destruct (String.eqb_spec bearer "") as [->|Hne]; cbn [negb].
  - by rewrite decide_True.
  - rewrite decide_False by done. rewrite check_token_unfold.
    destruct (first_by_token (Some bearer) (session_users w)) as [[i u]|]; [|done].
    destruct (token_exp u) as [e|]; [|done]. by case_bool_decide.
Qed.

(** X1.  When [verify_token] authenticates a request, the user it binds
    holds exactly the presented token, the token is not empty, its expiry
    is not before the current time, and nothing but [g.current_user]
    changed. *)
Theorem verify_token_sound (bearer : string) (now : Z) (w w' : world) (i : nat) :
  verify_token bearer now w = (Return (Some i), w') →
  ∃ u e,
    session_users w !! i = Some u
    ∧ token u = Some bearer
    ∧ bearer ≠ ""
    ∧ token_exp u = Some e
    ∧ now ≤ e
    ∧ w' = set_g_current_user (Ref i) w.
Proof.
  rewrite verify_token_unfold. case_decide as Hne; [done|].
  destruct (first_by_token (Some bearer) (session_users w)) as [[j u]|] eqn:Hfind;
    [|done].
  destruct (token_exp u) as [e|] eqn:He; [|done].
  case_bool_decide as Hlt; [done|]. intros [= <- <-].
  apply list_find_Some in Hfind as (Hu & Ht & _).
  exists u, e. split_and!; [done..|lia|done].
Qed.

(** [alice]'s token at second 5. *)
Lemma verify_token_sound_witness :
  ∃ u e,
    session_users library !! 0%nat = Some u
    ∧ token u = Some "tok-alice"
    ∧ "tok-alice" ≠ ""
    ∧ token_exp u = Some e
    ∧ seconds 5 ≤ e
    ∧ set_g_current_user (Ref 0) library = set_g_current_user (Ref 0) library.
Proof.
  apply (verify_token_sound "tok-alice" (seconds 5) library
           (set_g_current_user (Ref 0) library) 0%nat).
  reflexivity.
Defined.

(** X2.  [verify_token] answers [None] and binds [None] to
    [g.current_user], leaving the rows alone, for the empty token (without
    looking anything up, so whatever the table holds), for a token no row
    carries, and for a token whose row expired before the current time. *)
Theorem verify_token_rejects (bearer : string) (now : Z) (w : world) :
  (bearer = "" →
   verify_token bearer now w = (Return None, set_g_current_user IsNone w))
  ∧ (Forall (λ u, token u ≠ Some bearer) (session_users w) →
     verify_token bearer now w = (Return None, set_g_current_user IsNone w))
  ∧ (∀ i u e,
       first_by_token (Some bearer) (session_users w) = Some (i, u) →
       token_exp u = Some e →
       e < now →
       verify_token bearer now w = (Return None, set_g_current_user IsNone w)).
Proof.
  rewrite verify_token_unfold. split_and!.
  - intros ->. by rewrite decide_True.
  - intros Hnone. rewrite (first_by_token_none _ _ Hnone). by case_decide.
  - intros i u e -> -> Hlt. rewrite bool_decide_eq_true_2 by done. by case_decide.
Qed.

(** The empty token on a table where [carol]'s row has no expiry; an
    unknown token; [bob]'s token after its expiry. *)
Lemma verify_token_rejects_witness :
  verify_token "" (seconds 5) library_with_carol
  = (Return None, set_g_current_user IsNone library_with_carol)
  ∧ verify_token "tok-eve" (seconds 5) library
    = (Return None, set_g_current_user IsNone library)
  ∧ verify_token "tok-bob" (seconds 101) library
    = (Return None, set_g_current_user IsNone library).
Proof.
  split_and!.
  - apply (proj1 (verify_token_rejects "" (seconds 5) library_with_carol)).
    reflexivity.
  - apply (proj1 (proj2 (verify_token_rejects "tok-eve" (seconds 5) library))).
    compute_done.
  - apply (proj2 (proj2 (verify_token_rejects "tok-bob" (seconds 101) library))
             1%nat bob (seconds 100)); reflexivity.
Defined.

(** ** Unique columns *)

Lemma list_find_unique {A B} `{EqDecision B} (f : A → option B) (l : list A)
    (i : nat) (x : A) (k : B) :
  NoDup (omap f l) →
  l !! i = Some x →
  f x = Some k →
  list_find (λ y, f y = Some k) l = Some (i, x).
Proof.
  revert i. induction l as [|y l IH]; intros i Hnd Hi Hk; [done|].
  cbn [list_find]. destruct i as [|i]; cbn in Hi.
  - injection Hi as ->. by rewrite decide_True.
  - cbn [omap list_omap] in Hnd. fold (omap f l) in Hnd. case_decide as Hy.
    + rewrite Hy in Hnd. apply NoDup_cons in Hnd as [Hnotin _].
      destruct Hnotin. apply list_elem_of_omap. exists x.
      split; [|done]. by eapply list_elem_of_lookup_2.
    + assert (Hnd' : NoDup (omap f l)).
      { destruct (f y); [by apply NoDup_cons in Hnd as [_ ?]|done]. }
      by rewrite (IH i Hnd' Hi Hk).
Qed.

Lemma unique_tokens_inj (rows : list User) (i j : nat) (u y : User) (t : string) :
  unique_tokens rows →
  rows !! i = Some u → token u = Some t →
  rows !! j = Some y → token y = Some t →
  i = j.
Proof.
  intros Hnd Hi Hu Hj Hy.
  pose proof (list_find_unique token rows i u t Hnd Hi Hu) as H1.
  pose proof (list_find_unique token rows j y t Hnd Hj Hy) as H2.
  congruence.
Qed.

(** ** Token issuance, continued *)

Lemma reusable_true (u : User) (now : Z) :
  reusable u now = true →
  ∃ t e, token u = Some t ∧ t ≠ "" ∧ token_exp u = Some e ∧ now + seconds 60 < e.
Proof.
  unfold reusable. intros [Ht He]%andb_prop.
  apply truthy_of_str in Ht as (t & Ht & Hne).
  destruct (token_exp u) as [e|]; [|done].
  apply bool_decide_eq_true_1 in He. eauto 10.
Qed.

Lemma get_token_reuse_returns (self : nat) (exp now : Z) (fresh : string)
    (w : world) (u : User) :
  session_users w !! self = Some u →
  reusable u now = true →
  get_token self exp now fresh w = (Return (token u), w).
Proof.
  intros Hu Hre.
  destruct (get_token_cases self exp now fresh w u Hu)
    as [(Ht & He & _)|[(_ & Heq)|(Hno & _)]]; [|done|congruence].
  apply reusable_true in Hre as (? & ? & ? & ? & ? & ?). congruence.
Qed.

Lemma get_token_issue_returns (self : nat) (exp now : Z) (fresh : string)
    (w w1 : world) (u : User) (r : option string) :
  session_users w !! self = Some u →
  reusable u now = false →
  get_token self exp now fresh w = (Return r, w1) →
  r = Some fresh
  ∧ w1 = committed (with_session_users (<[self := issued u exp now fresh]>) w)
  ∧ unique_tokens (<[self := issued u exp now fresh]> (session_users w)).
Proof.
  intros Hu Hno Hcall.
  destruct (get_token_cases self exp now fresh w u Hu)
    as [(_ & _ & Heq)|[(Hre & _)|(_ & Heq)]]; [congruence|congruence|].
  rewrite Heq in Hcall. unfold commit in Hcall.
  case_decide as Huniq; [|done]. injection Hcall as <- <-.
  split_and!; [done|done|]. by destruct Huniq.
Qed.

(** X3.  The token that [get_token] returns resolves, by [check_token],
    to the very user it was returned for at every time up to its expiry,
    and to nobody after it; the token column being unique. *)
Theorem get_token_then_check_token (self : nat) (exp now : Z) (fresh : string)
    (w w1 : world) (u : User) (r : option string) :
  unique_tokens (session_users w) →
  session_users w !! self = Some u →
  get_token self exp now fresh w = (Return r, w1) →
  ∃ t e u1,
    r = Some t
    ∧ session_users w1 !! self = Some u1
    ∧ token u1 = Some t
    ∧ token_exp u1 = Some e
    ∧ (∀ later, later ≤ e →
         check_token (Some t) later w1 = (Return (Some self), w1))
    ∧ (∀ later, e < later → check_token (Some t) later w1 = (Return None, w1)).
Proof.
  intros Huniq Hu Hcall.
  assert (Hi : (self < length (session_users w))%nat) by eauto using lookup_lt_Some.
  assert (Hgoal : ∀ rows u1 t e,
    unique_tokens rows → rows !! self = Some u1 → token u1 = Some t →
    token_exp u1 = Some e → session_users w1 = rows →
    (∀ later, later ≤ e →
       check_token (Some t) later w1 = (Return (Some self), w1))
    ∧ (∀ later, e < later → check_token (Some t) later w1 = (Return None, w1))).
  { intros rows u1 t e Hnd Hu1 Ht He Hrows.
    pose proof (list_find_unique token rows self u1 t Hnd Hu1 Ht) as Hfind.
    split; intros later Hlater; rewrite check_token_unfold;
      unfold first_by_token; rewrite Hrows, Hfind, He.
    - by rewrite bool_decide_eq_false_2 by lia.
    - by rewrite bool_decide_eq_true_2 by lia. }
  destruct (reusable u now) eqn:Hre.
  - rewrite (get_token_reuse_returns _ _ _ _ _ _ Hu Hre) in Hcall.
    injection Hcall as <- <-.
    apply reusable_true in Hre as (t & e & Ht & _ & He & _).
    exists t, e, u. split_and!; [done..| |];
      by apply (Hgoal (session_users w) u t e).
  - destruct (get_token_issue_returns _ _ _ _ _ _ _ _ Hu Hre Hcall)
      as (-> & -> & Huniq').
    exists fresh, (now + seconds exp), (issued u exp now fresh).
    assert (Hu1 : <[self := issued u exp now fresh]> (session_users w) !! self
                  = Some (issued u exp now fresh))
      by by apply list_lookup_insert_eq.
    split_and!; [done..| |];
      by apply (Hgoal (<[self := issued u exp now fresh]> (session_users w))
                  (issued u exp now fresh) fresh (now + seconds exp)).
Qed.

(** [alice] is issued ["n1"] at second 50 for a day. *)
Lemma get_token_then_check_token_witness :
  ∃ t e u1,
    Some "n1" = Some t
    ∧ session_users library_after_issue !! 0%nat = Some u1
    ∧ token u1 = Some t
    ∧ token_exp u1 = Some e
    ∧ (∀ later, later ≤ e →
         check_token (Some t) later library_after_issue
         = (Return (Some 0%nat), library_after_issue))
    ∧ (∀ later, e < later →
         check_token (Some t) later library_after_issue
         = (Return None, library_after_issue)).
Proof.
  apply (get_token_then_check_token 0 86400 (seconds 50) "n1" library
           library_after_issue alice (Some "n1")).
  - compute_done.
  - reflexivity.
  - reflexivity.
Defined.

(** X4.  When [get_token] replaces a token, the replaced token resolves to
    nobody any more, at any time. *)
Theorem get_token_retires_the_old_token (self : nat) (exp now : Z)
    (fresh old : string) (w w1 : world) (u : User) (r : option string) :
  unique_tokens (session_users w) →
  session_users w !! self = Some u →
  token u = Some old →
  old ≠ fresh →
  reusable u now = false →
  get_token self exp now fresh w = (Return r, w1) →
  get_token self exp now fresh w = (Return (Some fresh), w1)
  ∧ ∀ later, check_token (Some old) later w1 = (Return None, w1).
Proof.
  intros Huniq Hu Hold Hne Hno Hcall.
  destruct (get_token_issue_returns _ _ _ _ _ _ _ _ Hu Hno Hcall)
    as (-> & Hw1 & _).
  split; [done|]. subst w1. intros later. rewrite check_token_unfold.
  rewrite first_by_token_none; [done|].
  cbn [committed session_users with_session_users].
  apply Forall_lookup. intros j y Hj Hy.
  destruct (decide (j = self)) as [->|Hjs].
  - rewrite list_lookup_insert_eq in Hj by eauto using lookup_lt_Some.
    injection Hj as <-. cbn in Hy. congruence.
  - rewrite list_lookup_insert_ne in Hj by done.
    by destruct (Hjs (unique_tokens_inj _ _ _ _ _ _ Huniq Hj Hy Hu Hold)).
Qed.

(** [alice]'s token has 50 seconds left at second 50 and is replaced. *)
Lemma get_token_retires_the_old_token_witness :
  get_token 0 86400 (seconds 50) "n1" library
  = (Return (Some "n1"), library_after_issue)
  ∧ ∀ later, check_token (Some "tok-alice") later library_after_issue
             = (Return None, library_after_issue).
Proof.
  apply (get_token_retires_the_old_token 0 86400 (seconds 50) "n1" "tok-alice"
           library library_after_issue alice (Some "n1")).
  - compute_done.
  - reflexivity.
  - reflexivity.
  - discriminate.
  - reflexivity.
  - reflexivity.
Defined.

Lemma token_has_expiry_issued (u : User) (exp now : Z) (fresh : string) :
  token_has_expiry (issued u exp now fresh).
Proof. intros _. done. Qed.

(** X5.  [get_token] and [revoke_token] keep the invariant that every row
    with a token has an expiry, in the session and in the committed table,
    however they end; the clock reading and the times computed from it
    being dates, so that no date arithmetic overflows. *)
Theorem token_methods_keep_expiry (self : nat) (exp now : Z) (fresh : string)
    (w : world) :
  tokens_have_expiry w →
  is_datetime now →
  is_datetime (now + seconds 60) →
  is_datetime (now + seconds exp) →
  is_datetime (now - seconds 61) →
  tokens_have_expiry (snd (get_token self exp now fresh w))
  ∧ tokens_have_expiry (snd (revoke_token self now w)).
Proof.
  intros [Hses Hsto] _ _ _ _. split.
  - destruct (session_users w !! self) as [u|] eqn:Hu.
    + destruct (get_token_cases self exp now fresh w u Hu)
        as [(_ & _ & ->)|[(_ & ->)|(_ & ->)]]; [done|done|].
      unfold commit. case_decide.
      * cbn. split; cbn; apply Forall_insert; auto using token_has_expiry_issued.
      * by cbn.
    + unfold get_token, deref_user. se_unfold. by rewrite Hu.
  - unfold revoke_token, on_user. se_unfold.
    destruct (session_users w !! self) as [u|]; [|done].
    cbn. split; [|done]. cbn. apply Forall_insert; [done|]. by intros _.
Qed.

(** [library] has the invariant; so have the states after a call of
    either method on [alice] at second 50, for a lifetime of a day. *)
Lemma token_methods_keep_expiry_witness :
  tokens_have_expiry (snd (get_token 0 86400 (seconds 50) "n1" library))
  ∧ tokens_have_expiry (snd (revoke_token 0 (seconds 50) library)).
Proof.
  apply (token_methods_keep_expiry 0 86400 (seconds 50) "n1" library).
  - split; repeat constructor; discriminate.
  - unfold is_datetime, datetime_min, datetime_max, seconds. lia.
  - unfold is_datetime, datetime_min, datetime_max, seconds. lia.
  - unfold is_datetime, datetime_min, datetime_max, seconds. lia.
  - unfold is_datetime, datetime_min, datetime_max, seconds. lia.
Defined.

(** X6.  A returning [get_token] touches nothing but the token and the
    expiry of its own row: the books, [g.current_user], the other rows
    and the other columns of the row are as before. *)
Theorem get_token_frame (self : nat) (exp now : Z) (fresh : string)
    (w w1 : world) (u : User) (r : option string) :
  session_users w !! self = Some u →
  get_token self exp now fresh w = (Return r, w1) →
  session_books w1 = session_books w
  ∧ g_current_user w1 = g_current_user w
  ∧ (∀ j, j ≠ self → session_users w1 !! j = session_users w !! j)
  ∧ ∃ u1,
      session_users w1 !! self = Some u1
      ∧ user_id u1 = user_id u
      ∧ first_name u1 = first_name u
      ∧ last_name u1 = last_name u
      ∧ email u1 = email u
      ∧ password u1 = password u
      ∧ created_on u1 = created_on u
      ∧ is_admin u1 = is_admin u
      ∧ icon u1 = icon u.
Proof.
  intros Hu Hcall. destruct (reusable u now) eqn:Hre.
  - rewrite (get_token_reuse_returns _ _ _ _ _ _ Hu Hre) in Hcall.
    injection Hcall as <- <-. split_and!; [done..|]. by exists u.
  - destruct (get_token_issue_returns _ _ _ _ _ _ _ _ Hu Hre Hcall)
      as (-> & -> & _).
    split_and!; [done|done| |].
    + intros j Hj. cbn. by rewrite list_lookup_insert_ne.
    + exists (issued u exp now fresh). split_and!; [|done..].
      cbn. apply list_lookup_insert_eq. eauto using lookup_lt_Some.
Qed.

(** [alice] stays the admin she was when she is issued a new token. *)
Lemma get_token_frame_witness :
  session_books library_after_issue = session_books library
  ∧ g_current_user library_after_issue = g_current_user library
  ∧ (∀ j, j ≠ 0%nat →
       session_users library_after_issue !! j = session_users library !! j)
  ∧ ∃ u1,
      session_users library_after_issue !! 0%nat = Some u1
      ∧ user_id u1 = user_id alice
      ∧ first_name u1 = first_name alice
      ∧ last_name u1 = last_name alice
      ∧ email u1 = email alice
      ∧ password u1 = password alice
      ∧ created_on u1 = created_on alice
      ∧ is_admin u1 = is_admin alice
      ∧ icon u1 = icon alice.
Proof.
  apply (get_token_frame 0 86400 (seconds 50) "n1" library library_after_issue
           alice (Some "n1")); reflexivity.
Defined.

(** X7.  A token issued with a lifetime of 60 seconds or less is never
    reused: a later call that returns at all returns its own new token. *)
Theorem get_token_short_lifetime (self : nat) (exp now1 now2 : Z)
    (fresh1 fresh2 : string) (w w1 w2 : world) (u : User)
    (r1 r2 : option string) :
  session_users w !! self = Some u →
  reusable u now1 = false →
  exp ≤ 60 →
  now1 ≤ now2 →
  get_token self exp now1 fresh1 w = (Return r1, w1) →
  get_token self exp now2 fresh2 w1 = (Return r2, w2) →
  get_token self exp now1 fresh1 w = (Return (Some fresh1), w1)
  ∧ get_token self exp now2 fresh2 w1 = (Return (Some fresh2), w2).
Proof.
  intros Hu Hno Hexp Hle Hcall1 Hcall2.
  destruct (get_token_issue_returns _ _ _ _ _ _ _ _ Hu Hno Hcall1)
    as (-> & Hw1 & _).
  split; [done|]. subst w1.
  assert (Hu1 : session_users
                  (committed (with_session_users
                                (<[self := issued u exp now1 fresh1]>) w)) !! self
                = Some (issued u exp now1 fresh1)).
  { cbn. apply list_lookup_insert_eq. eauto using lookup_lt_Some. }
  assert (Hno2 : reusable (issued u exp now1 fresh1) now2 = false).
  { unfold reusable. cbn [issued token_exp set_token_exp].
    rewrite bool_decide_eq_false_2; [by rewrite andb_false_r|].
    unfold seconds. lia. }
  by destruct (get_token_issue_returns _ _ _ _ _ _ _ _ Hu1 Hno2 Hcall2) as (<- & _).
Qed.

(** [alice] asks twice for a 30 second token, at seconds 50 and 51. *)
Lemma get_token_short_lifetime_witness :
  let w1 := snd (get_token 0 30 (seconds 50) "n1" library) in
  let w2 := snd (get_token 0 30 (seconds 51) "n2" w1) in
  get_token 0 30 (seconds 50) "n1" library = (Return (Some "n1"), w1)
  ∧ get_token 0 30 (seconds 51) "n2" w1 = (Return (Some "n2"), w2).
Proof.
  apply (get_token_short_lifetime 0 30 (seconds 50) (seconds 51) "n1" "n2"
           library
           (snd (get_token 0 30 (seconds 50) "n1" library))
           (snd (get_token 0 30 (seconds 51) "n2"
                   (snd (get_token 0 30 (seconds 50) "n1" library))))
           alice (Some "n1") (Some "n2"));
    [reflexivity|reflexivity|lia|unfold seconds; lia|reflexivity|reflexivity].
Defined.

Lemma token_gone_after_replace (rows : list User) (self : nat) (u u' : User)
    (old : string) :
  unique_tokens rows →
  rows !! self = Some u →
  token u = Some old →
  token u' ≠ Some old →
  Forall (λ y, token y ≠ Some old) (<[self := u']> rows).
Proof.
  intros Huniq Hu Hold Hnew. apply Forall_lookup. intros j y Hj Hy.
  destruct (decide (j = self)) as [->|Hjs].
  - rewrite list_lookup_insert_eq in Hj by eauto using lookup_lt_Some.
    by injection Hj as <-.
  - rewrite list_lookup_insert_ne in Hj by done.
    by destruct (Hjs (unique_tokens_inj _ _ _ _ _ _ Huniq Hj Hy Hu Hold)).
Qed.

(** X8.  In the session that revoked a token, a call of [get_token] at a
    time not before the revocation does not hand the revoked token out
    again: if it returns, it returns the newly generated token and commits
    it, and the revoked token then resolves to nobody, in that session and
    in the next request; the tokens being unique.  ([revoke_token] alone
    commits nothing.) *)
Theorem revoke_token_then_get_token (self : nat) (now later exp : Z)
    (fresh old : string) (w w2 : world) (u : User) (r : option string) :
  unique_tokens (session_users w) →
  session_users w !! self = Some u →
  token u = Some old →
  old ≠ fresh →
  is_datetime (now - seconds 61) →
  now ≤ later →
  get_token self exp later fresh (snd (revoke_token self now w)) = (Return r, w2) →
  get_token self exp later fresh (snd (revoke_token self now w))
  = (Return (Some fresh), w2)
  ∧ stored_users w2 = session_users w2
  ∧ (∀ t, check_token (Some old) t w2 = (Return None, w2))
  ∧ (∀ t, check_token (Some old) t (next_request w2)
          = (Return None, next_request w2)).
Proof.
  intros Huniq Hu Hold Hne _ Hle Hcall. rewrite Hcall.
  rewrite (revoke_token_unfold _ _ _ _ Hu) in Hcall.
  cbn [snd] in Hcall.
  set (u1 := set_token_exp (Some (now - seconds 61)) u) in *.
  assert (Hu1 : session_users (with_session_users (<[self := u1]>) w) !! self
                = Some u1).
  { cbn. apply list_lookup_insert_eq. eauto using lookup_lt_Some. }
  assert (Hno : reusable u1 later = false).
  { unfold reusable. cbn [u1 token_exp set_token_exp].
    rewrite bool_decide_eq_false_2; [by rewrite andb_false_r|].
    unfold seconds. lia. }
  destruct (get_token_issue_returns _ _ _ _ _ _ _ _ Hu1 Hno Hcall)
    as (-> & -> & _).
  assert (Hgone : Forall (λ y, token y ≠ Some old)
                    (<[self := issued u1 exp later fresh]> (session_users w))).
  { apply (token_gone_after_replace _ _ u); [done..|]. cbn. congruence. }
  split_and!; [done|done| |]; intros t; rewrite check_token_unfold;
    cbn [committed next_request session_users stored_users with_session_users];
    rewrite list_insert_insert_eq; by rewrite (first_by_token_none _ _ Hgone).
Qed.

(** [bob]'s token, good until second 100, is revoked at second 20; at
    second 21, in the same session, he gets ["n1"], and ["tok-bob"]
    resolves to nobody from then on. *)
Lemma revoke_token_then_get_token_witness :
  let w1 := snd (revoke_token 1 (seconds 20) library) in
  let w2 := snd (get_token 1 86400 (seconds 21) "n1" w1) in
  get_token 1 86400 (seconds 21) "n1" w1 = (Return (Some "n1"), w2)
  ∧ stored_users w2 = session_users w2
  ∧ (∀ t, check_token (Some "tok-bob") t w2 = (Return None, w2))
  ∧ (∀ t, check_token (Some "tok-bob") t (next_request w2)
          = (Return None, next_request w2)).
Proof.
  apply (revoke_token_then_get_token 1 (seconds 20) (seconds 21) 86400 "n1"
           "tok-bob" library
           (snd (get_token 1 86400 (seconds 21) "n1"
                   (snd (revoke_token 1 (seconds 20) library))))
           bob (Some "n1")).
  - compute_done.
  - reflexivity.
  - reflexivity.
  - discriminate.
  - unfold is_datetime, datetime_min, datetime_max, seconds. lia.
  - unfold seconds. lia.
  - reflexivity.
Defined.

(** ** Password authentication and the guard, continued *)

(** X9.  [verify_password] binds the user found by email to
    [g.current_user] before the password is compared: the binding is
    there whatever the comparison answers, also when it fails or raises. *)
Theorem verify_password_binds_first (defs : members) (e pw : string)
    (w : world) (i : nat) (u : User) :
  first_by_email e (session_users w) = Some (i, u) →
  g_current_user (snd (verify_password defs e pw w)) = Ref i.
Proof.
  intros Hfind. rewrite verify_password_unfold, Hfind.
  apply list_find_Some in Hfind as (Hu & _ & _).
  unfold on_user. cbn [session_users set_g_current_user]. rewrite Hu.
  by destruct (call _ _ _ u).
Qed.

(** A wrong password for [alice], and app.py, where the comparison is
    missing: [alice] is bound in both. *)
Lemma verify_password_binds_first_witness :
  accepted (fst (verify_password with_sample_check "a@b.com" "b" library)) = false
  ∧ g_current_user (snd (verify_password with_sample_check "a@b.com" "b" library))
    = Ref 0
  ∧ g_current_user (snd (verify_password app_py "a@b.com" "b" library)) = Ref 0.
Proof.
  split_and!.
  - reflexivity.
  - apply (verify_password_binds_first with_sample_check "a@b.com" "b" library
             0%nat alice).
    reflexivity.
  - apply (verify_password_binds_first app_py "a@b.com" "b" library 0%nat alice).
    reflexivity.
Defined.

(** X10.  [require_admin] runs the handler for no identity but one whose
    [is_admin] is [True]: a row with [False] or NULL is answered 403, and
    without a bound user the guard raises [AttributeError]; the state is
    the one before in each case. *)
Theorem require_admin_admits_only_true {Args A : Type} (f : Args → SE world A)
    (args : Args) (w : world) :
  (∀ i u,
     g_current_user w = Ref i →
     session_users w !! i = Some u →
     is_admin u ≠ Some true →
     require_admin f args w = (Abort 403, w))
  ∧ (g_current_user w = IsNone →
     require_admin f args w = (Raise (AttributeError "is_admin"), w))
  ∧ (g_current_user w = Unset →
     require_admin f args w = (Raise (AttributeError "current_user"), w)).
Proof.
  split_and!.
  - intros i u Hg Hu Hadm. rewrite (require_admin_unfold f args w i u Hg Hu).
    by destruct (is_admin u) as [[]|].
  - intros Hg. unfold require_admin. se_unfold. by rewrite Hg.
  - intros Hg. unfold require_admin. se_unfold. by rewrite Hg.
Qed.

(** [dave], whose [is_admin] is NULL, asks for the deletion of book 1;
    the same request with nobody bound. *)
Lemma require_admin_admits_only_true_witness :
  require_admin (delete_book show) 1 (set_g_current_user (Ref 2) two_books)
  = (Abort 403, set_g_current_user (Ref 2) two_books)
  ∧ require_admin (delete_book show) 1 (set_g_current_user IsNone two_books)
    = (Raise (AttributeError "is_admin"), set_g_current_user IsNone two_books)
  ∧ require_admin (delete_book show) 1 two_books
    = (Raise (AttributeError "current_user"), two_books).
Proof.
  split_and!.
  - apply (proj1 (require_admin_admits_only_true (delete_book show) 1
                    (set_g_current_user (Ref 2) two_books)) 2%nat dave);
      [reflexivity|reflexivity|discriminate].
  - apply (proj1 (proj2 (require_admin_admits_only_true (delete_book show) 1
                           (set_g_current_user IsNone two_books)))).
    reflexivity.
  - apply (proj2 (proj2 (require_admin_admits_only_true (delete_book show) 1
                           two_books))).
    reflexivity.
Defined.

(** ** The key check of the creating views *)

Lemma all_in_dict (d : gmap string value) (keys : list string) :
  all_in (VDict d) keys
  = Return (bool_decide (Forall (λ k, is_Some (d !! k)) keys)).
Proof.
  induction keys as [|k keys IH]; [done|].
  cbn [all_in contains]. unfold mbind, outcome_mbind, outcome_bind.
  destruct (d !! k) as [v|] eqn:Hk.
  - rewrite bool_decide_eq_true_2 by eauto. rewrite IH. f_equal.
    apply bool_decide_ext. rewrite Forall_cons, Hk.
    split; [by intros ?; split; [eauto|]|by intros [_ ?]].
  - rewrite bool_decide_eq_false_2 by (rewrite <- not_eq_None_Some; auto).
    rewrite bool_decide_eq_false_2; [done|].
    rewrite Forall_cons, Hk. intros [[? [=]] _].
Qed.

(** X11.  For a JSON object that lacks one of the keys a creating view
    asks for, [register_user] and [post_book] abort with 404 and leave the
    state as it was, whatever the other keys hold. *)
Theorem key_check_rejects (format : value → string) (defs : members)
    (req : request) (id : Z) (w : world) (d : gmap string value) :
  json req = VDict d →
  (Exists (λ k, d !! k = None) user_keys →
   register_user format defs req id w = (Abort 404, w))
  ∧ (Exists (λ k, d !! k = None) book_keys →
     post_book format defs req tt w = (Abort 404, w)).
Proof.
  intros Hd.
  assert (Hno : ∀ keys, Exists (λ k, d !! k = None) keys →
                        all_in (VDict d) keys = Return false).
  { intros keys Hex. rewrite all_in_dict, bool_decide_eq_false_2; [done|].
    intros Hall. apply Exists_exists in Hex as (k & Hin & Hk).
    rewrite Forall_forall in Hall. destruct (Hall k Hin) as [v Hv]. congruence. }
  split; intros Hex.
  - unfold register_user. se_unfold. rewrite Hd.
    fold user_keys. by rewrite (Hno _ Hex).
  - unfold post_book. se_unfold. rewrite Hd.
    fold book_keys. by rewrite (Hno _ Hex).
Qed.

(** A profile without [email] for POST /user/7; the same object, which
    has no [title], for POST /book. *)
Lemma key_check_rejects_witness :
  register_user show app_py (alice_sends profile_without_email) 7 library
  = (Abort 404, library)
  ∧ post_book show app_py (alice_sends profile_without_email) tt library
    = (Abort 404, library).
Proof.
  destruct (key_check_rejects show app_py (alice_sends profile_without_email) 7
              library
              {[ "first_name" := VStr "A2"; "last_name" := VStr "B2";
                 "password" := VStr "pw"; "icon" := VStr "i.png" ]} eq_refl)
    as [Huser Hbook].
  split.
  - apply Huser. compute_done.
  - apply Hbook. compute_done.
Defined.

(** ** What the writing views never do *)

(** X12.  [register_user], [put_user] and [post_book] never return: each
    builds its answer from the attribute [id], which neither class has, so
    every request that gets that far ends in [AttributeError]; this for any
    definition of the methods app.py leaves undefined. *)
Theorem writing_views_never_return (format : value → string) (defs : members)
    (req : request) (id : Z) (w : world) :
  (∀ r, fst (register_user format defs req id w) ≠ Return r)
  ∧ (∀ r, fst (put_user format defs req id w) ≠ Return r)
  ∧ (∀ r, fst (post_book format defs req tt w) ≠ Return r).
Proof.
  split_and!; intros r.
  - unfold register_user. se_unfold.
    destruct (all_in (json req) _) as [[]| |]; [|done..]. cbn [negb].
    destruct (User_from_dict defs (json req) new_User) as [[[]| |] u]; [|done..].
    destruct (add_user (utcnow req) u w) as [[u'| |] w1]; [|done..].
    destruct (commit w1) as [[[]| |] w2]; [|done..].
    unfold getattr. rewrite User_attrs_no_id.
    by destruct (User_attrs u' !! "first_name"), (User_attrs u' !! "last_name").
  - unfold put_user. se_unfold.
    destruct (get_user id (session_users w)) as [[i u]|]; [|done].
    destruct (on_user i _ w) as [[[]| |] w1]; [|done..].
    destruct (commit w1) as [[[]| |] w2]; [|done..].
    unfold deref_user. destruct (session_users w2 !! i) as [u2|]; [|done].
    unfold getattr. by rewrite User_attrs_no_id.
  - unfold post_book. se_unfold.
    destruct (all_in (json req) _) as [[]| |]; [|done..]. cbn [negb].
    destruct (call (Book_from_dict defs) "from_dict" [] new_Book)
      as [[v| |] b]; [|done..].
    destruct (add_book b w) as [[b'| |] w1]; [|done..].
    destruct (commit w1) as [[[]| |] w2]; [|done..].
    unfold getattr. rewrite Book_attrs_no_id.
    by destruct (Book_attrs b' !! "title").
Qed.

Lemma User_from_dict_app_py (data : value) (u : User) :
  ∀ r, fst (User_from_dict app_py data u) ≠ Return r.
Proof.
  intros r. unfold User_from_dict. se_unfold. cbn [User_hash_password app_py].
  destruct (subscript data "first_name"); [|done..].
  destruct (subscript data "last_name"); [|done..].
  by destruct (subscript data "email").
Qed.

Lemma on_user_id {A} (i : nat) (c : SE User A) (w : world) :
  (∀ u, snd (c u) = u) → snd (on_user i c w) = w.
Proof.
  intros Hc. unfold on_user. destruct (session_users w !! i) as [u|] eqn:Hu; [|done].
  specialize (Hc u). destruct (c u) as [r u']. cbn in Hc. subst u'. cbn.
  unfold with_session_users. rewrite list_insert_id by done. by destruct w.
Qed.

(** X13.  On app.py as it is, no user route changes the committed users:
    [register_user] and [delete_user] leave the whole state as it was, and
    [put_user] commits nothing, for every request. *)
Theorem user_routes_commit_nothing (format : value → string) (req : request)
    (id : Z) (w : world) :
  snd (register_user format app_py req id w) = w
  ∧ stored_users (snd (put_user format app_py req id w)) = stored_users w
  ∧ snd (delete_user format id w) = w.
Proof.
  split_and!.
  - unfold register_user. se_unfold.
    destruct (all_in (json req) _) as [[]| |]; [|done..]. cbn [negb].
    pose proof (User_from_dict_app_py (json req) new_User) as Hnever.
    destruct (User_from_dict app_py (json req) new_User) as [[[]| |] u]; [|done..].
    by destruct (Hnever tt).
  - unfold put_user. se_unfold.
    destruct (get_user id (session_users w)) as [[i u]|]; [|done].
    unfold on_user. destruct (session_users w !! i) as [u0|]; [|done].
    pose proof (User_from_dict_app_py (json req) u0) as Hnever.
    destruct (User_from_dict app_py (json req) u0) as [[[]| |] u1]; [|done..].
    by destruct (Hnever tt).
  - unfold delete_user. se_unfold.
    destruct (get_user id (session_users w)) as [[i u]|]; [|done].
    pose proof (on_user_id i (call None "delete" []) w (λ _, eq_refl)) as Hw.
    destruct (on_user i _ w) as [[v| |] w1]; cbn in Hw; by subst.
Qed.

(** X14.  A JSON body that is [null], a boolean or a number is no missing
    key: the key check of [register_user] and [post_book] itself raises
    [TypeError], and so does [from_dict] in [put_user] for an existing
    user; nothing is committed. *)
Theorem scalar_body_raises (format : value → string) (defs : members)
    (req : request) (id : Z) (w : world) :
  (json req = VNone ∨ (∃ b, json req = VBool b) ∨ (∃ n, json req = VInt n)) →
  register_user format defs req id w
  = (Raise (TypeError "argument is not iterable"), w)
  ∧ post_book format defs req tt w
    = (Raise (TypeError "argument is not iterable"), w)
  ∧ (is_Some (get_user id (session_users w)) →
     fst (put_user format defs req id w)
     = Raise (TypeError "object is not subscriptable")
     ∧ snd (put_user format defs req id w) = w).
Proof.
  intros Hbody.
  assert (Hin : ∀ keys k, all_in (json req) (k :: keys)
                          = Raise (TypeError "argument is not iterable")).
  { intros keys k. by destruct Hbody as [->|[[b ->]|[n ->]]]. }
  assert (Hsub : ∀ k, subscript (json req) k
                      = Raise (TypeError "object is not subscriptable")).
  { intros k. by destruct Hbody as [->|[[b ->]|[n ->]]]. }
  split_and!.
  - unfold register_user. se_unfold. by rewrite Hin.
  - unfold post_book. se_unfold. by rewrite Hin.
  - intros [[i u] Hget]. unfold put_user. se_unfold. rewrite Hget.
    apply list_find_Some in Hget as (Hu & _ & _).
    unfold on_user. rewrite Hu. unfold User_from_dict. se_unfold. rewrite Hsub.
    cbn. split; [done|].
    unfold with_session_users. rewrite list_insert_id by done. by destruct w.
Qed.

(** The body [null], sent for [bob]. *)
Lemma scalar_body_raises_witness :
  register_user show app_py (alice_sends VNone) 2 library
  = (Raise (TypeError "argument is not iterable"), library)
  ∧ post_book show app_py (alice_sends VNone) tt library
    = (Raise (TypeError "argument is not iterable"), library)
  ∧ (is_Some (get_user 2 (session_users library)) →
     fst (put_user show app_py (alice_sends VNone) 2 library)
     = Raise (TypeError "object is not subscriptable")
     ∧ snd (put_user show app_py (alice_sends VNone) 2 library) = library).
Proof.
  apply (scalar_body_raises show app_py (alice_sends VNone) 2 library).
  left. reflexivity.
Defined.

(** X15.  A view that takes an id aborts with 404, and changes nothing,
    when the id is a key the table can hold (it fits 64 bits) and no row
    has it: [put_user] and [delete_user] on the users, [get_book_by_id]
    and [delete_book] on the books. *)
Theorem missing_id_is_not_found (format : value → string) (defs : members)
    (req : request) (id : Z) (w : world) :
  int64 id →
  (Forall (λ u, user_id u ≠ Some id) (session_users w) →
   put_user format defs req id w = (Abort 404, w)
   ∧ delete_user format id w = (Abort 404, w))
  ∧ (Forall (λ b, book_id b ≠ Some id) (session_books w) →
     get_book_by_id id w = (Abort 404, w)
     ∧ delete_book format id w = (Abort 404, w)).
Proof.
  intros _. split; intros Hnone.
  - assert (Hget : get_user id (session_users w) = None)
      by by apply list_find_None.
    unfold put_user, delete_user. se_unfold. by rewrite Hget.
  - assert (Hget : get_book id (session_books w) = None)
      by by apply list_find_None.
    unfold get_book_by_id, delete_book. se_unfold. by rewrite Hget.
Qed.

(** Nobody and no book has the id 9. *)
Lemma missing_id_is_not_found_witness :
  (put_user show app_py (alice_sends book_fields) 9 two_books = (Abort 404, two_books)
   ∧ delete_user show 9 two_books = (Abort 404, two_books))
  ∧ (get_book_by_id 9 two_books = (Abort 404, two_books)
     ∧ delete_book show 9 two_books = (Abort 404, two_books)).
Proof.
  destruct (missing_id_is_not_found show app_py (alice_sends book_fields) 9
              two_books) as [Husers Hbooks].
  { unfold int64. lia. }
  split.
  - apply Husers. compute_done.
  - apply Hbooks. compute_done.
Defined.

(** ** The book views *)

Lemma get_book_by_id_unfold (id : Z) (w : world) :
  get_book_by_id id w =
    match get_book id (session_books w) with
    | None => (Abort 404, w)
    | Some (_, book) =>
        (Return (Some (make_response (VDict (Book_to_dict book)) 200)), w)
    end.
Proof.
  unfold get_book_by_id. se_unfold.
  by destruct (get_book id (session_books w)) as [[i b]|].
Qed.

(** X16.  A 200 answer of [get_book_by_id] changes nothing and carries
    the id that was asked for under ['book_id']; its page count is under
    the key ['pages '] with a trailing blank, and there is no key
    ['pages'] and no key ['id']. *)
Theorem get_book_by_id_answer (id : Z) (w w' : world) (r : option response) :
  get_book_by_id id w = (Return r, w') →
  w' = w
  ∧ ∃ d,
      r = Some (make_response (VDict d) 200)
      ∧ d !! "book_id" = Some (VInt id)
      ∧ is_Some (d !! "pages ")
      ∧ d !! "pages" = None
      ∧ d !! "id" = None.
Proof.
  rewrite get_book_by_id_unfold.
  destruct (get_book id (session_books w)) as [[i b]|] eqn:Hget; [|done].
  intros [= <- <-]. split; [done|].
  apply list_find_Some in Hget as (_ & Hid & _).
  exists (Book_to_dict b). split_and!; [done| |by eexists|done|done].
  unfold Book_to_dict. rewrite Hid. done.
Qed.

(** Book 2 of [two_books]. *)
Lemma get_book_by_id_answer_witness :
  two_books = two_books
  ∧ ∃ d,
      Some (make_response (VDict (Book_to_dict b_book)) 200)
      = Some (make_response (VDict d) 200)
      ∧ d !! "book_id" = Some (VInt 2)
      ∧ is_Some (d !! "pages ")
      ∧ d !! "pages" = None
      ∧ d !! "id" = None.
Proof.
  apply (get_book_by_id_answer 2 two_books two_books
           (Some (make_response (VDict (Book_to_dict b_book)) 200))).
  reflexivity.
Defined.

(** X17.  [get_book] never fails and changes nothing: it answers 200
    with one dictionary per row, in table order.  With unique ids, every
    row it lists is what [get_book_by_id] answers for the row's id, and
    every 200 answer of [get_book_by_id] is in the list. *)
Theorem get_book_agrees_with_get_book_by_id (w : world) :
  NoDup (omap book_id (session_books w)) →
  ∃ l,
    Views.get_book tt w
    = (Return (Some (make_response (VDict {[ "books" := VList l ]}) 200)), w)
    ∧ length l = length (session_books w)
    ∧ (∀ j b id,
         session_books w !! j = Some b →
         book_id b = Some id →
         l !! j = Some (VDict (Book_to_dict b))
         ∧ get_book_by_id id w
           = (Return (Some (make_response (VDict (Book_to_dict b)) 200)), w))
    ∧ (∀ id resp w',
         get_book_by_id id w = (Return (Some resp), w') →
         body resp ∈ l).
Proof.
  intros Hnd.
  exists ((λ book, VDict (Book_to_dict book)) <$> session_books w).
  split_and!.
  - done.
  - by rewrite length_fmap.
  - intros j b id Hj Hid. split.
    + by rewrite list_lookup_fmap, Hj.
    + rewrite get_book_by_id_unfold. unfold get_book.
      by rewrite (list_find_unique book_id _ j b id Hnd Hj Hid).
  - intros id resp w'. rewrite get_book_by_id_unfold.
    destruct (get_book id (session_books w)) as [[i b]|] eqn:Hget; [|done].
    intros [= <- <-]. cbn [body].
    apply list_find_Some in Hget as (Hi & _ & _).
    apply list_elem_of_fmap. exists b. split; [done|].
    by eapply list_elem_of_lookup_2.
Qed.

(** The two books of [two_books]. *)
Lemma get_book_agrees_with_get_book_by_id_witness :
  ∃ l,
    Views.get_book tt two_books
    = (Return (Some (make_response (VDict {[ "books" := VList l ]}) 200)),
       two_books)
    ∧ length l = length (session_books two_books)
    ∧ (∀ j b id,
         session_books two_books !! j = Some b →
         book_id b = Some id →
         l !! j = Some (VDict (Book_to_dict b))
         ∧ get_book_by_id id two_books
           = (Return (Some (make_response (VDict (Book_to_dict b)) 200)),
              two_books))
    ∧ (∀ id resp w',
         get_book_by_id id two_books = (Return (Some resp), w') →
         body resp ∈ l).
Proof.
  apply (get_book_agrees_with_get_book_by_id two_books).
  compute_done.
Defined.

Lemma list_find_delete_other {A} (P : A → Prop) `{!∀ x, Decision (P x)}
    (l : list A) (i : nat) (x : A) :
  l !! i = Some x →
  ¬ P x →
  snd <$> list_find P (delete i l) = snd <$> list_find P l.
Proof.
  revert i. induction l as [|y l IH]; intros i Hi Hx; [done|].
  destruct i as [|i]; cbn in Hi.
  - injection Hi as ->. cbn [delete list_delete list_find].
    rewrite decide_False by done.
    rewrite <- option_fmap_compose. by destruct (list_find P l) as [[]|].
  - cbn [delete list_delete list_find]. case_decide; [done|].
    rewrite <- !option_fmap_compose.
    specialize (IH i Hi Hx). fold (delete i l).
    destruct (list_find P (delete i l)) as [[]|], (list_find P l) as [[]|];
      cbn in *; congruence.
Qed.

Lemma delete_book_unfold (format : value → string) (id : Z) (w : world)
    (i : nat) (b : Book) :
  get_book id (session_books w) = Some (i, b) →
  delete_book format id w =
    match commit (with_session_books (delete i) w) with
    | (Return _, w1) =>
        (Return (Some (make_response
                         (VStr ("Book with id: " +:+ format (VInt id)
                                +:+ " has been removed"))
                         200)), w1)
    | (Abort st, w1) => (Abort st, w1)
    | (Raise e, w1) => (Raise e, w1)
    end.
Proof.
  intros Hget. unfold delete_book, Book_delete. se_unfold. rewrite Hget.
  by destruct (commit _) as [[[]| |] w1].
Qed.

(** X18.  When [delete_book] answers, the answer is the 200 message for
    the id, the row is gone from the session and from the committed table,
    [get_book_by_id] aborts with 404 for that id and answers every other id
    as before, and the users are untouched; the ids being unique. *)
Theorem delete_book_removes (format : value → string) (id : Z) (w w1 : world)
    (r : option response) :
  NoDup (omap book_id (session_books w)) →
  delete_book format id w = (Return r, w1) →
  r = Some (make_response
              (VStr ("Book with id: " +:+ format (VInt id) +:+ " has been removed"))
              200)
  ∧ get_book_by_id id w1 = (Abort 404, w1)
  ∧ (∀ id', id' ≠ id →
       fst (get_book_by_id id' w1) = fst (get_book_by_id id' w))
  ∧ (length (session_books w1) + 1 = length (session_books w))%nat
  ∧ stored_books w1 = session_books w1
  ∧ session_users w1 = session_users w.
Proof.
  intros Hnd Hcall.
  destruct (get_book id (session_books w)) as [[i b]|] eqn:Hget.
  2:{ unfold delete_book in Hcall. se_unfold. by rewrite Hget in Hcall. }
  rewrite (delete_book_unfold _ _ _ _ _ Hget) in Hcall.
  unfold commit in Hcall. case_decide; [|done]. injection Hcall as <- <-.
  apply list_find_Some in Hget as (Hi & Hid & _).
  cbn [session_books session_users stored_books with_session_books].
  split_and!; [done| | | |done|done].
  - rewrite get_book_by_id_unfold. cbn [session_books]. unfold get_book.
    rewrite (proj2 (list_find_None _ _)); [done|].
    pose proof (delete_Permutation _ _ _ Hi) as Hperm.
    rewrite Hperm in Hnd. cbn [omap list_omap] in Hnd. rewrite Hid in Hnd.
    apply NoDup_cons in Hnd as [Hnotin _].
    apply Forall_forall. intros y Hy Hyid. destruct Hnotin.
    apply list_elem_of_omap. eauto.
  - intros id' Hne. rewrite !get_book_by_id_unfold. cbn [session_books].
    unfold get_book.
    assert (Hother : book_id b ≠ Some id') by congruence.
    pose proof (list_find_delete_other (λ y, book_id y = Some id')
                  _ i b Hi Hother) as Hfind.
    destruct (list_find _ (delete i (session_books w))) as [[]|],
             (list_find _ (session_books w)) as [[]|]; cbn in *; congruence.
  - rewrite length_delete by eauto.
    apply lookup_lt_Some in Hi. lia.
Qed.

(** Book 1 of [two_books] is deleted; book 2 stays. *)
Lemma delete_book_removes_witness :
  let w1 := snd (delete_book show 1 two_books) in
  fst (delete_book show 1 two_books)
  = Return (Some (make_response (VStr "Book with id: 1 has been removed") 200))
  ∧ get_book_by_id 1 w1 = (Abort 404, w1)
  ∧ fst (get_book_by_id 2 w1) = fst (get_book_by_id 2 two_books).
Proof.
  pose proof (delete_book_removes show 1 two_books
                (snd (delete_book show 1 two_books))
                (Some (make_response (VStr "Book with id: 1 has been removed") 200)))
    as H.
  destruct H as (_ & Hgone & Hother & _); [compute_done|reflexivity|].
  split_and!; [reflexivity|exact Hgone|].
  apply Hother. discriminate.
Defined.

Lemma Book_to_dict_lookup (b : Book) (k : string) :
  Book_to_dict b !! k =
    if decide (k = "book_id") then Some (of_int (book_id b))
    else if decide (k = "title") then Some (title b)
    else if decide (k = "author") then Some (author b)
    else if decide (k = "pages ") then Some (pages b)
    else if decide (k = "summary") then Some (summary b)
    else if decide (k = "image") then Some (image b)
    else None.
Proof.
  unfold Book_to_dict.
  repeat (rewrite lookup_insert; case_decide; [by subst|]).
  rewrite lookup_singleton. case_decide; [by subst|].
  by repeat (rewrite decide_False by done).
Qed.

(** X19.  [Book.to_dict] loses nothing: two rows with the same dictionary
    are the same row, in all six columns. *)
Theorem Book_to_dict_injective (b1 b2 : Book) :
  Book_to_dict b1 = Book_to_dict b2 → b1 = b2.
Proof.
  intros Heq.
  assert (Hkey : ∀ k, Book_to_dict b1 !! k = Book_to_dict b2 !! k)
    by (intros k; by rewrite Heq).
  pose proof (Hkey "book_id") as Hid. pose proof (Hkey "title") as Ht.
  pose proof (Hkey "author") as Ha. pose proof (Hkey "pages ") as Hp.
  pose proof (Hkey "summary") as Hs. pose proof (Hkey "image") as Hi.
  rewrite !Book_to_dict_lookup in Hid, Ht, Ha, Hp, Hs, Hi.
  destruct b1 as [id1 t1 a1 p1 s1 i1], b2 as [id2 t2 a2 p2 s2 i2].
  cbn in Hid, Ht, Ha, Hp, Hs, Hi. rewrite !decide_True in Hid by done.
  injection Ht as ->. injection Ha as ->. injection Hp as ->.
  injection Hs as ->. injection Hi as ->.
  destruct id1, id2; by simplify_eq.
Qed.

(** The row read back from the dictionary of [a_book]. *)
Lemma Book_to_dict_injective_witness :
  a_book
  = mkBook (Some 1) (VStr "T") (VStr "X") (VInt 10) (VStr "S") (VStr "img.png").
Proof.
  apply (Book_to_dict_injective a_book
           (mkBook (Some 1) (VStr "T") (VStr "X") (VInt 10) (VStr "S")
                   (VStr "img.png"))).
  reflexivity.
Defined.

(** ** DELETE /item/<id>, end to end *)

Lemma no_id_after_delete (rows : list Book) (j : nat) (b : Book) (id : Z) :
  NoDup (omap book_id rows) →
  rows !! j = Some b →
  book_id b = Some id →
  Forall (λ y, book_id y ≠ Some id) (delete j rows).
Proof.
  intros Hnd Hj Hid.
  rewrite (delete_Permutation _ _ _ Hj) in Hnd.
  cbn [omap list_omap] in Hnd. rewrite Hid in Hnd.
  apply NoDup_cons in Hnd as [Hnotin _].
  apply Forall_forall. intros y Hy Hyid. destruct Hnotin.
  apply list_elem_of_omap. eauto.
Qed.

Lemma check_token_valid (bearer : string) (t : Z) (w : world) (i : nat)
    (u : User) (e : Z) :
  first_by_token (Some bearer) (session_users w) = Some (i, u) →
  token_exp u = Some e →
  t ≤ e →
  check_token (Some bearer) t w = (Return (Some i), w).
Proof.
  intros Hfind He Hle. rewrite check_token_unfold, Hfind, He.
  by rewrite bool_decide_eq_false_2 by lia.
Qed.

(** X20.  The one writing route that succeeds.  An admin whose token is
    valid at the time of the request sends DELETE /item/<id> for an
    existing book, the unique columns being in order: the answer is the
    200 message, the book is gone from the session and from the committed
    table, and the users are as before.  In a later request with the same
    token, GET /book/<id> is answered 404 while the token is still valid
    at the time of that request, and 401 once it has expired. *)
Theorem DELETE_item_deletes (format : value → string) (bearer : string)
    (req later : request) (id : Z) (w : world) (i j : nat) (u : User)
    (b : Book) (e : Z) :
  bearer ≠ "" →
  first_by_token (Some bearer) (session_users w) = Some (i, u) →
  token_exp u = Some e →
  utcnow req ≤ e →
  is_admin u = Some true →
  unique_tokens (session_users w) →
  unique_emails (session_users w) →
  NoDup (omap book_id (session_books w)) →
  get_book id (session_books w) = Some (j, b) →
  let w1 := committed (with_session_books (delete j) (set_g_current_user (Ref i) w)) in
  let w2 := next_request w1 in
  DELETE_item format bearer req id w
  = (Return (Some (make_response
                     (VStr ("Book with id: " +:+ format (VInt id)
                            +:+ " has been removed"))
                     200)), w1)
  ∧ session_books w1 = delete j (session_books w)
  ∧ stored_books w1 = delete j (session_books w)
  ∧ session_users w1 = session_users w
  ∧ (utcnow later ≤ e →
     GET_book_by_id bearer later id w2
     = (Abort 404, set_g_current_user (Ref i) w2))
  ∧ (e < utcnow later →
     GET_book_by_id bearer later id w2
     = (Abort 401, set_g_current_user IsNone w2)).
Proof.
  intros Hne Hfind He Hnow Hadm Htok Hmail Hnd Hget w1 w2.
  pose proof Hfind as (Hu & _ & _)%list_find_Some.
  set (w0 := set_g_current_user (Ref i) w).
  assert (Hdel : delete_book format id w0
                 = (Return (Some (make_response
                                    (VStr ("Book with id: " +:+ format (VInt id)
                                           +:+ " has been removed"))
                                    200)), w1)).
  { rewrite (delete_book_unfold format id w0 j b Hget).
    unfold commit. by rewrite decide_True. }
  split_and!; [|done|done|done| |].
  - unfold DELETE_item, token_login_required.
    change (mbind ?k ?c) with (se_bind c k). unfold se_bind.
    rewrite (verify_token_resolves _ _ _ _ Hne
               (check_token_valid _ _ w i u e Hfind He Hnow)).
    rewrite (require_admin_unfold _ _ w0 i u eq_refl Hu), Hadm. exact Hdel.
  - intros Hlater.
    unfold GET_book_by_id, token_login_required.
    change (mbind ?k ?c) with (se_bind c k). unfold se_bind.
    rewrite (verify_token_resolves _ _ _ _ Hne
               (check_token_valid _ _ w2 i u e Hfind He Hlater)).
    rewrite get_book_by_id_unfold. unfold get_book.
    rewrite (proj2 (list_find_None _ _)); [done|].
    apply list_find_Some in Hget as (Hj & Hid & _).
    by apply (no_id_after_delete _ j b id).
  - intros Hexpired.
    unfold GET_book_by_id, token_login_required.
    change (mbind ?k ?c) with (se_bind c k). unfold se_bind.
    rewrite verify_token_unfold, decide_False by done.
    change (session_users w2) with (session_users w).
    by rewrite Hfind, He, bool_decide_eq_true_2.
Qed.

(** [alice], whose token expires at second 100, deletes book 1 of
    [two_books] at second 5; she asks for it at second 60, and again at
    second 101. *)
Lemma DELETE_item_deletes_witness :
  let w1 := committed (with_session_books (delete 0%nat)
                         (set_g_current_user (Ref 0) two_books)) in
  let w2 := next_request w1 in
  DELETE_item show "tok-alice" (alice_sends VNone) 1 two_books
  = (Return (Some (make_response
                     (VStr ("Book with id: " +:+ show (VInt 1)
                            +:+ " has been removed"))
                     200)), w1)
  ∧ stored_books w1 = [b_book]
  ∧ GET_book_by_id "tok-alice" (mkRequest VNone (seconds 60) "n2") 1 w2
    = (Abort 404, set_g_current_user (Ref 0) w2)
  ∧ GET_book_by_id "tok-alice" (mkRequest VNone (seconds 101) "n3") 1 w2
    = (Abort 401, set_g_current_user IsNone w2).
Proof.
  assert (Hall : ∀ later,
    let w1 := committed (with_session_books (delete 0%nat)
                           (set_g_current_user (Ref 0) two_books)) in
    let w2 := next_request w1 in
    DELETE_item show "tok-alice" (alice_sends VNone) 1 two_books
    = (Return (Some (make_response
                       (VStr ("Book with id: " +:+ show (VInt 1)
                              +:+ " has been removed"))
                       200)), w1)
    ∧ session_books w1 = delete 0%nat (session_books two_books)
    ∧ stored_books w1 = delete 0%nat (session_books two_books)
    ∧ session_users w1 = session_users two_books
    ∧ (utcnow later ≤ seconds 100 →
       GET_book_by_id "tok-alice" later 1 w2
       = (Abort 404, set_g_current_user (Ref 0) w2))
    ∧ (seconds 100 < utcnow later →
       GET_book_by_id "tok-alice" later 1 w2
       = (Abort 401, set_g_current_user IsNone w2))).
  { intros later.
    apply (DELETE_item_deletes show "tok-alice" (alice_sends VNone) later 1
             two_books 0%nat 0%nat alice a_book (seconds 100));
      [discriminate|reflexivity|reflexivity|cbn; unfold seconds; lia
      |reflexivity|compute_done|compute_done|compute_done|reflexivity]. }
  cbv zeta in Hall. split_and!.
  - apply (Hall (alice_sends VNone)).
  - apply (Hall (alice_sends VNone)).
  - apply (Hall (mkRequest VNone (seconds 60) "n2")). cbn. unfold seconds. lia.
  - apply (Hall (mkRequest VNone (seconds 101) "n3")). cbn. unfold seconds. lia.
Defined.
